(** * SimQuant: the SMA crossover backtest engine of [sma_backtest.py]

    A shallow embedding of [calculate_signals], [plot_signals] (its marker
    derivation), [calculate_returns] and [get_performance_report], and the
    properties the specification states about them.

    Numbers.  A pandas float cell is an [option Q]: [None] is NaN (an
    undefined cell), [Some q] a finite value.  Floating-point rounding is
    not modelled: arithmetic is exact rational arithmetic.  A division by
    zero, which in floating point gives an infinity or NaN, gives [None];
    the properties that involve a quotient are stated where its divisor is
    not zero.  Integer cells ([Signal], [Position]) are [Z].

    Tables.  A [DataFrame] is an index and a finite map from column names to
    columns.  The engine's functions assign columns of the table they are
    given and return that same table; here they take the table's state
    before the call and return its state after it. *)

From Stdlib Require Import Ascii String QArith Qminmax Qabs Lqa.
From stdpp Require Import base option list gmap strings pretty.

(** ** Cells and columns *)

Definition float : Type := option Q.

Inductive column : Type :=
  | Floats (xs : list float)
  | Ints (xs : list Z).

Definition col_length (c : column) : nat :=
  match c with Floats xs => length xs | Ints xs => length xs end.

(** Upcast of a column to floats, as pandas does when an integer column
    meets a float operation. *)
Definition to_floats (c : column) : list float :=
  match c with
  | Floats xs => xs
  | Ints xs => (fun z => Some (inject_Z z)) <$> xs
  end.

(** The integer view of a column; a float column has none. *)
Definition to_ints (c : column) : list Z :=
  match c with Ints xs => xs | Floats _ => [] end.

(** Equality of float cells up to the representation of a rational. *)
Definition feq (a b : float) : Prop := option_Forall2 Qeq a b.

Definition fsub (a b : float) : float :=
  match a, b with Some x, Some y => Some (x - y)%Q | _, _ => None end.

Definition fmul (a b : float) : float :=
  match a, b with Some x, Some y => Some (x * y)%Q | _, _ => None end.

Definition fdiv (a b : float) : float :=
  match a, b with
  | Some x, Some y => if Qeq_bool y 0 then None else Some (x / y)%Q
  | _, _ => None
  end.

(** [a > b] on float cells: a comparison with NaN is false. *)
Definition fgt (a b : float) : bool :=
  match a, b with Some x, Some y => negb (Qle_bool x y) | _, _ => false end.

Fixpoint dropna (xs : list float) : list Q :=
  match xs with
  | [] => []
  | Some x :: r => x :: dropna r
  | None :: r => dropna r
  end.

Definition Qsum (xs : list Q) : Q := foldr Qplus 0%Q xs.
Definition Qprod (xs : list Q) : Q := foldr Qmult 1%Q xs.
Definition Qnat (n : nat) : Q := inject_Z (Z.of_nat n).

(** ** Data frames *)

Definition date : Type := Z.

Record DataFrame : Type := mkDataFrame {
  index : list date;
  columns : gmap string column
}.

(** [df[name]]: [None] is pandas' [KeyError]. *)
Definition getitem (df : DataFrame) (name : string) : option column :=
  columns df !! name.

(** [df[name] = c]: adds the column or overwrites it. *)
Definition setitem (name : string) (c : column) (df : DataFrame) : DataFrame :=
  {| index := index df; columns := <[name := c]> (columns df) |}.

(** Every column of a table is as long as its index. *)
Definition well_formed (df : DataFrame) : Prop :=
  forall name c, getitem df name = Some c -> col_length c = length (index df).

Definition floats_of (df : DataFrame) (name : string) : list float :=
  from_option to_floats [] (getitem df name).

Definition ints_of (df : DataFrame) (name : string) : list Z :=
  from_option to_ints [] (getitem df name).

(** ** calculate_signals *)

(** The observations of the window of [w] rows that ends at row [i]. *)
Definition window_at (w i : nat) (xs : list float) : list float :=
  drop (S i - w) (take (S i) xs).

(** [Series.rolling(window=w).mean()], with pandas' default
    [min_periods = w]: the mean of the window's observations when there are
    at least [w] of them, NaN otherwise. *)
Definition rolling_mean (w : nat) (xs : list float) : list float :=
  imap (fun i _ =>
          let obs := dropna (window_at w i xs) in
          if bool_decide (w <= length obs /\ 0 < length obs)%nat
          then Some (Qsum obs / Qnat (length obs))%Q
          else None) xs.

(** [df.loc[mask, name] = v] on an integer column. *)
Definition loc_set (mask : list bool) (v : Z) (xs : list Z) : list Z :=
  zip_with (fun (m : bool) x => if m then v else x) mask xs.

(** The fill of pandas' [pad]: [val] is the last value that was kept. *)
Fixpoint pad (to_replace val : Z) (xs : list Z) : list Z :=
  match xs with
  | [] => []
  | x :: r =>
      if bool_decide (x = to_replace)
      then val :: pad to_replace val r
      else x :: pad to_replace x r
  end.

(** [Series.replace(to_replace=v, method='ffill')]: every cell equal to [v]
    takes the last value before it that differs from [v]; [val] starts as
    the first cell, so leading cells equal to [v] keep their value. *)
Definition replace_ffill (v : Z) (xs : list Z) : list Z :=
  match xs with
  | [] => []
  | x0 :: _ => pad v x0 xs
  end.

(** [Series.fillna(v)]: an integer column has no NaN. *)
Definition fillna (v : Q) (c : column) : column :=
  match c with
  | Floats xs => Floats ((fun x => Some (default v x)) <$> xs)
  | Ints xs => Ints xs
  end.

(** The column name [f'SMA{window}']. *)
Definition sma_name (window : nat) : string := "SMA" +:+ pretty window.

(** How a call ends: it returns the table, or a missing column raises
    [KeyError]; in both cases [df] is the state in which the call leaves the
    table it was given. *)
Inductive outcome : Type :=
  | Returns (df : DataFrame)
  | KeyError (name : string) (df : DataFrame).

Definition state_after (o : outcome) : DataFrame :=
  match o with Returns df => df | KeyError _ df => df end.

(** Reading [df[name]] and going on with the column. *)
Definition with_column (df : DataFrame) (name : string)
    (k : column -> outcome) : outcome :=
  match getitem df name with
  | Some c => k c
  | None => KeyError name df
  end.

Definition calculate_signals (df : DataFrame) (short_window long_window : nat)
  : outcome :=
  with_column df "Close" (fun close =>
  let df := setitem (sma_name short_window)
              (Floats (rolling_mean short_window (to_floats close))) df in
  with_column df "Close" (fun close =>
  let df := setitem (sma_name long_window)
              (Floats (rolling_mean long_window (to_floats close))) df in
  let df := setitem "Signal" (Ints (replicate (length (index df)) 0%Z)) df in
  with_column df (sma_name short_window) (fun short_sma =>
  with_column df (sma_name long_window) (fun long_sma =>
  with_column df "Signal" (fun signal =>
  let mask := zip_with fgt (to_floats short_sma) (to_floats long_sma) in
  let df := setitem "Signal" (Ints (loc_set mask 1%Z (to_ints signal))) df in
  with_column df "Signal" (fun signal =>
  let df := setitem "Position" (Ints (replace_ffill 0%Z (to_ints signal))) df in
  with_column df "Position" (fun position =>
  let df := setitem "Position" (fillna 0%Q position) df in
  Returns df))))))).

(** ** plot_signals: the crossover markers *)

(** [Series.shift(1)]: the first cell becomes [fill]. *)
Definition shift1 {A : Type} (fill : A) (xs : list A) : list A :=
  take (length xs) (fill :: xs).

(** [series == v]; a NaN cell ([None]) equals no number. *)
Definition eq_scalar (v : Z) (xs : list (option Z)) : list bool :=
  (fun x => bool_decide (x = Some v)) <$> xs.

Definition buy_signals (signal : list Z) : list bool :=
  zip_with andb (eq_scalar 1 (Some <$> signal))
                (eq_scalar 0 (shift1 None (Some <$> signal))).

Definition sell_signals (signal : list Z) : list bool :=
  zip_with andb (eq_scalar 0 (Some <$> signal))
                (eq_scalar 1 (shift1 None (Some <$> signal))).

(** [df[mask]]: the rows at which the mask is true. *)
Fixpoint boolean_index {A : Type} (mask : list bool) (rows : list A) : list A :=
  match mask, rows with
  | m :: mask', r :: rows' =>
      if m then r :: boolean_index mask' rows' else boolean_index mask' rows'
  | _, _ => []
  end.

(** What the figure scatters: the (date, close) points of the two marker
    series.  The three line plots and the labels are not modelled. *)
Record figure : Type := mkFigure {
  buy_markers : list (date * float);
  sell_markers : list (date * float)
}.

Definition plot_signals (df : DataFrame) (short_window long_window : nat)
  : option figure :=
  signal ← getitem df "Signal";
  close ← getitem df "Close";
  _ ← getitem df (sma_name short_window);
  _ ← getitem df (sma_name long_window);
  let rows := zip (index df) (to_floats close) in
  Some {| buy_markers := boolean_index (buy_signals (to_ints signal)) rows;
          sell_markers := boolean_index (sell_signals (to_ints signal)) rows |}.

(** ** calculate_returns *)

(** [fillna(method='pad')], the first step of [pct_change]. *)
Fixpoint ffill (last : float) (xs : list float) : list float :=
  match xs with
  | [] => []
  | Some x :: r => Some x :: ffill (Some x) r
  | None :: r => last :: ffill last r
  end.

(** [Series.pct_change()]: [data / data.shift(1) - 1]. *)
Definition pct_change (xs : list float) : list float :=
  let data := ffill None xs in
  zip_with (fun a b => fsub (fdiv a b) (Some 1%Q)) data (shift1 None data).

Definition calculate_returns (df : DataFrame) : outcome :=
  with_column df "Close" (fun close =>
  let df := setitem "Daily Return" (Floats (pct_change (to_floats close))) df in
  with_column df "Daily Return" (fun daily_return =>
  with_column df "Position" (fun position =>
  let df := setitem "Strategy Return"
              (Floats (zip_with fmul (to_floats daily_return)
                                     (to_floats position))) df in
  Returns df))).

(** ** get_performance_report *)

(** [Series.cumprod()] and [Series.cummax()]: the running fold of the
    column, cell by cell. *)
Fixpoint cumulate (f : Q -> Q -> Q) (acc : Q) (xs : list Q) : list Q :=
  match xs with
  | [] => []
  | x :: r => f acc x :: cumulate f (f acc x) r
  end.

Definition accumulate (f : Q -> Q -> Q) (xs : list Q) : list Q :=
  match xs with [] => [] | x :: r => x :: cumulate f x r end.

Definition cumprod : list Q -> list Q := accumulate Qmult.
Definition cummax : list Q -> list Q := accumulate Qmax.

(** [Series.min()], which skips NaN. *)
Definition fmin (xs : list float) : float :=
  match dropna xs with
  | [] => None
  | x :: r => Some (foldl Qmin x r)
  end.

(** The drawdown series of the report: [cumulative], [peak] and [drawdown]
    of the source, on the returns left by [dropna]. *)
Definition drawdown_series (daily_returns : list Q) : list float :=
  let cumulative := cumprod (Qplus 1 <$> daily_returns) in
  let peak := cummax cumulative in
  zip_with (fun c p => fdiv (Some (c - p)%Q) (Some p)) cumulative peak.

Definition newline : string := String "010"%char EmptyString.

(** [s * n] on strings. *)
Fixpoint string_repeat (s : string) (n : nat) : string :=
  match n with O => EmptyString | S n' => s +:+ string_repeat s n' end.

(** The five values the numeric report prints. *)
Record statistics : Type := mkStatistics {
  cumulative_return : Q;
  annualized_return : Q;
  annualized_volatility : Q;
  sharpe_ratio : float;
  max_drawdown : float
}.

(** The report is a string in the source.  The placeholder is kept as its
    text; of the numeric report we keep the name and the five values, not
    their rendering by the format specifiers. *)
Inductive report : Type :=
  | NotEnoughData (text : string)
  | Statistics (name : string) (values : statistics).

Section Analyzer.

(** Float exponentiation and square root have no rational counterpart; the
    analyzer is embedded over any two such functions. *)
Variable Qpow : Q -> Q -> Q.
Variable Qsqrt : Q -> Q.

(** [Series.std()]: the sample standard deviation (ddof = 1). *)
Definition std (xs : list Q) : Q :=
  let mean := (Qsum xs / Qnat (length xs))%Q in
  Qsqrt (Qsum ((fun x => (x - mean) * (x - mean))%Q <$> xs)
         / Qnat (length xs - 1))%Q.

Definition get_performance_report (daily_returns : list float) (name : string)
  : report :=
  let daily_returns := dropna daily_returns in
  if bool_decide (length daily_returns < 2)%nat then
    NotEnoughData ("Performance Report - " +:+ name +:+ newline
                   +:+ string_repeat "=" 40
                   +:+ newline +:+ "Not enough data for calculation." +:+ newline
                   +:+ string_repeat "=" 40 +:+ newline)
  else
    let cumulative_return := (Qprod (Qplus 1 <$> daily_returns) - 1)%Q in
    let annualized_return :=
      if bool_decide (252 < length daily_returns)%nat
      then (Qpow (1 + cumulative_return)
                 (252 / Qnat (length daily_returns)) - 1)%Q
      else cumulative_return in
    let annualized_volatility := (std daily_returns * Qsqrt 252)%Q in
    let sharpe_ratio :=
      if negb (Qeq_bool annualized_volatility 0)
      then fdiv (Some annualized_return) (Some annualized_volatility)
      else Some 0%Q in
    let drawdown := drawdown_series daily_returns in
    let max_drawdown := fmin drawdown in
    Statistics name
      {| cumulative_return := cumulative_return;
         annualized_return := annualized_return;
         annualized_volatility := annualized_volatility;
         sharpe_ratio := sharpe_ratio;
         max_drawdown := max_drawdown |}.

End Analyzer.

(** ** Definitions used to state the properties *)

(** The signal column as [calculate_signals] leaves it, from the closes. *)
Definition signal_column (short_window long_window : nat) (close : list float)
    (rows : nat) : list Z :=
  loc_set (zip_with fgt (rolling_mean short_window close)
                        (rolling_mean long_window close))
          1%Z (replicate rows 0%Z).

(** The specification's wealth curve [W_i], running peak [P_i] and
    drawdown, indexed from 0. *)
Definition wealth (rs : list Q) (i : nat) : Q :=
  Qprod (Qplus 1 <$> take (S i) rs).

Fixpoint running_peak (rs : list Q) (i : nat) : Q :=
  match i with
  | O => wealth rs 0
  | S k => Qmax (running_peak rs k) (wealth rs (S k))
  end.

Definition drawdown_at (rs : list Q) (i : nat) : Q :=
  ((wealth rs i - running_peak rs i) / running_peak rs i)%Q.

(** A table of three closes on which the short average first rises above
    the long one and then falls back under it. *)
Definition up_then_down : DataFrame :=
  mkDataFrame [1; 2; 3]%Z
    {[ "Close" := Floats [Some 1%Q; Some 2%Q; Some 1%Q] ]}.

(** A table that already carries a signal column with one upward and one
    downward crossover. *)
Definition crossing : DataFrame :=
  mkDataFrame [11; 12; 13; 14; 15]%Z
    {[ "Close" := Floats [Some 10%Q; Some 10%Q; Some 12%Q; Some 13%Q; Some 9%Q];
       "Signal" := Ints [0; 0; 1; 1; 0]%Z;
       sma_name 1 := Floats []; sma_name 2 := Floats [] ]}.

(** A caller's table that already has a column called [Position]. *)
Definition with_position : DataFrame :=
  mkDataFrame [1; 2; 3]%Z
    {[ "Close" := Floats [Some 1%Q; Some 2%Q; Some 1%Q];
       "Position" := Ints [7; 7; 7]%Z ]}.

(** [up_then_down] once [calculate_signals] has run on it with the windows
    1 and 2. *)
Definition after_signals : DataFrame :=
  state_after (calculate_signals up_then_down 1 2).

(** [df'] differs from [df] at most in the columns called [names]. *)
Definition only_changes (names : list string) (df df' : DataFrame) : Prop :=
  index df' = index df /\
  forall name, name ∉ names -> getitem df' name = getitem df name.

#[global] Instance well_formed_dec df : Decision (well_formed df).
Proof.
  refine (@map_Forall_dec _ _ _ _ _ _ _ _ _ _ _ _
            (fun _ c => col_length c = length (index df)) _ (columns df)).
  intros i x. apply _.
Defined.

(** ** plot_performance *)

Definition fadd (a b : float) : float :=
  match a, b with Some x, Some y => Some (x + y)%Q | _, _ => None end.

(** [Series.cumprod()] on a column with NaN (pandas' default
    [skipna=True]): the NaN cells count as 1 in the running product and are
    NaN in the result. *)
Definition cumprod_skipna (xs : list float) : list float :=
  zip_with (fun (x : float) c => match x with Some _ => Some c | None => None end)
           xs (cumprod (default 1%Q <$> xs)).

(** [plot_performance] writes the two growth curves as columns of the table
    and plots those two columns; the figure it returns shows nothing else. *)
Definition plot_performance (df : DataFrame) : outcome :=
  with_column df "Daily Return" (fun daily_return =>
  let df := setitem "BuyHold"
              (Floats (cumprod_skipna (fadd (Some 1%Q) <$> to_floats daily_return)))
              df in
  with_column df "Strategy Return" (fun strategy_return =>
  let df := setitem "Strategy"
              (Floats (cumprod_skipna
                         (fadd (Some 1%Q) <$> to_floats strategy_return)))
              df in
  Returns df)).

(** ** get_data and run_backtest *)

(** [df.empty]: one of the two axes has length 0. *)
Definition empty (df : DataFrame) : bool :=
  bool_decide (index df = [] \/ columns df = ∅).

(** [get_data], given what the provider downloaded. *)
Definition get_data (downloaded : DataFrame) : option DataFrame :=
  if empty downloaded then None else Some downloaded.

(** What [run_backtest] prints and shows, in order. *)
Inductive event : Type :=
  | Print (text : string)
  | PrintReport (r : report)
  | ShowSignals (fig : figure)
  | ShowPerformance (buy_hold strategy : list float).

(** A run ends normally or with a [KeyError] that nothing catches. *)
Inductive run : Type :=
  | Finished (out : list event)
  | Raised (out : list event).

Section Backtest.

Variable Qpow : Q -> Q -> Q.
Variable Qsqrt : Q -> Q.

Definition run_backtest (downloaded : DataFrame)
    (ticker start_date end_date : string) (short_window long_window : nat)
  : run :=
  match get_data downloaded with
  | None => Finished [Print ("Could not download data for " +:+ ticker +:+ ".")]
  | Some df =>
    match calculate_signals df short_window long_window with
    | KeyError _ _ => Raised []
    | Returns df =>
      match calculate_returns df with
      | KeyError _ _ => Raised []
      | Returns df =>
        let out := [Print ("Running backtest for " +:+ ticker +:+ " from "
                           +:+ start_date +:+ " to " +:+ end_date)] in
        match plot_signals df short_window long_window with
        | None => Raised out
        | Some fig_signals =>
          let out := out ++ [ShowSignals fig_signals] in
          match plot_performance df with
          | KeyError _ _ => Raised out
          | Returns df =>
            let out := out ++ [ShowPerformance (floats_of df "BuyHold")
                                               (floats_of df "Strategy")] in
            match getitem df "Daily Return", getitem df "Strategy Return" with
            | Some daily_return, Some strategy_return =>
                let report_buy_hold :=
                  get_performance_report Qpow Qsqrt
                    (to_floats daily_return) "Buy & Hold" in
                let report_strategy :=
                  get_performance_report Qpow Qsqrt
                    (to_floats strategy_return) "SMA Strategy" in
                Finished (out ++ [PrintReport report_buy_hold;
                                  PrintReport report_strategy])
            | _, _ => Raised out
            end
          end
        end
      end
    end
  end.

End Backtest.

(** ** app.py: get_metric *)

(** [metrics] maps each row label of the metrics table to the first cell of
    its row.  The result is the value and whether the warning was issued. *)
Fixpoint get_metric {V : Type} (metrics : gmap string V) (keys : list string)
    (default : V) : V * bool :=
  match keys with
  | [] => (default, true)
  | key :: keys' =>
      match metrics !! key with
      | Some v => (v, false)
      | None => get_metric metrics keys' default
      end
  end.

(** ** Definitions used to state the further properties *)

(** The number of rows a mask selects. *)
Definition selected (mask : list bool) : nat :=
  length (filter (fun b : bool => b = true) mask).

(** The daily returns of a series of closes, each from the close before. *)
Fixpoint ratios (previous : Q) (closes : list Q) : list Q :=
  match closes with
  | [] => []
  | c :: r => (c / previous - 1)%Q :: ratios c r
  end.

(** Tables and a metrics table on which the further properties are
    exercised. *)
Definition two_rows : DataFrame :=
  mkDataFrame [1; 2]%Z {[ "Close" := Floats [Some 1%Q; Some 2%Q] ]}.

Definition no_columns : DataFrame := mkDataFrame [1; 2]%Z ∅.

Definition sharpe_only : gmap string Q := {[ "Sharpe" := (3 # 2)%Q ]}.

(** * Properties *)

(** ** Columns and names *)

Lemma sma_name_unfold n : sma_name n = String "S" (String "M" (String "A" (pretty n))).
Proof. reflexivity. Qed.

Lemma sma_name_fresh n :
  sma_name n ≠ "Close" ∧ sma_name n ≠ "Signal" ∧ sma_name n ≠ "Position" ∧
  sma_name n ≠ "Daily Return" ∧ sma_name n ≠ "Strategy Return".
Proof. rewrite sma_name_unfold. repeat split; discriminate. Qed.

Lemma sma_name_inj n m : sma_name n = sma_name m -> n = m.
Proof.
  rewrite !sma_name_unfold. intros H. injection H as H. by apply (inj pretty).
Qed.

Lemma getitem_setitem_eq name c df : getitem (setitem name c df) name = Some c.
Proof. apply lookup_insert_eq. Qed.

Lemma getitem_setitem_ne name name' c df :
  name ≠ name' -> getitem (setitem name c df) name' = getitem df name'.
Proof. intros. unfold getitem, setitem; simpl. by apply lookup_insert_ne. Qed.

Lemma with_column_Some df name c k :
  getitem df name = Some c -> with_column df name k = k c.
Proof. unfold with_column. by intros ->. Qed.

Lemma rolling_mean_length w xs : length (rolling_mean w xs) = length xs.
Proof. unfold rolling_mean. by rewrite length_imap. Qed.

(** The table [calculate_signals] returns, column by column. *)
Lemma calculate_signals_returns df sw lw close :
  getitem df "Close" = Some close ->
  exists df',
    calculate_signals df sw lw = Returns df' /\
    index df' = index df /\
    floats_of df' (sma_name sw) = rolling_mean sw (to_floats close) /\
    floats_of df' (sma_name lw) = rolling_mean lw (to_floats close) /\
    ints_of df' "Signal" =
      signal_column sw lw (to_floats close) (length (index df)) /\
    ints_of df' "Position" =
      replace_ffill 0 (signal_column sw lw (to_floats close) (length (index df))).
Proof.
  intros Hclose.
  destruct (sma_name_fresh sw) as (Hs1 & Hs2 & Hs3 & _).
  destruct (sma_name_fresh lw) as (Hl1 & Hl2 & Hl3 & _).
  unfold calculate_signals.
  rewrite (with_column_Some _ _ close) by done.
  rewrite (with_column_Some _ _ close) by (by rewrite getitem_setitem_ne).
  cbv zeta.
  set (S := Floats (rolling_mean sw (to_floats close))).
  set (L := Floats (rolling_mean lw (to_floats close))).
  set (df1 := setitem (sma_name lw) L (setitem (sma_name sw) S df)).
  assert (Hshort : getitem df1 (sma_name sw) = Some S).
  { unfold df1. destruct (decide (sma_name lw = sma_name sw)) as [E|Hne].
    - rewrite E, getitem_setitem_eq. apply sma_name_inj in E.
      unfold S, L. by rewrite E.
    - by rewrite getitem_setitem_ne, getitem_setitem_eq. }
  assert (Hlong : getitem df1 (sma_name lw) = Some L)
    by apply getitem_setitem_eq.
  rewrite (with_column_Some _ _ S) by (by rewrite getitem_setitem_ne).
  rewrite (with_column_Some _ _ L) by (by rewrite getitem_setitem_ne).
  rewrite (with_column_Some _ _ _ _ (getitem_setitem_eq _ _ _)).
  rewrite (with_column_Some _ _ _ _ (getitem_setitem_eq _ _ _)).
  rewrite (with_column_Some _ _ _ _ (getitem_setitem_eq _ _ _)).
  eexists. split; [reflexivity|].
  unfold floats_of, ints_of.
  rewrite !getitem_setitem_eq.
  rewrite !(getitem_setitem_ne "Position"), !(getitem_setitem_ne "Signal") by done.
  rewrite !getitem_setitem_eq, Hshort, Hlong. simpl.
  by repeat split.
Qed.

Lemma fgt_spec a b : fgt (Some a) (Some b) = true <-> (b < a)%Q.
Proof.
  unfold fgt. rewrite negb_true_iff, <- not_true_iff_false, Qle_bool_iff.
  split; [apply Qnot_le_lt | apply Qlt_not_le].
Qed.

Lemma fgt_nan_l b : fgt None b = false.
Proof. reflexivity. Qed.

Lemma fgt_nan_r a : fgt a None = false.
Proof. by destruct a. Qed.

Lemma signal_column_length sw lw close :
  length (signal_column sw lw close (length close)) = length close.
Proof.
  unfold signal_column, loc_set.
  rewrite !length_zip_with, !rolling_mean_length, length_replicate. lia.
Qed.

Lemma signal_column_lookup sw lw close rows i s l :
  rolling_mean sw close !! i = Some s ->
  rolling_mean lw close !! i = Some l ->
  (i < rows)%nat ->
  signal_column sw lw close rows !! i = Some (if fgt s l then 1 else 0)%Z.
Proof.
  intros Hs Hl Hi. unfold signal_column, loc_set.
  rewrite !lookup_zip_with, Hs, Hl. simpl.
  by rewrite lookup_replicate_2.
Qed.

Lemma signal_column_binary sw lw close rows :
  Forall (fun x => x = 0 \/ x = 1)%Z (signal_column sw lw close rows).
Proof.
  apply Forall_lookup_2. intros i x. unfold signal_column, loc_set.
  rewrite lookup_zip_with. intros H.
  apply bind_Some in H as (m & _ & H).
  apply bind_Some in H as (z & Hz & H).
  apply lookup_replicate in Hz as [-> _].
  destruct m; naive_solver.
Qed.

Lemma foldr_max_base a b l :
  (b <= a)%Z -> foldr Z.max a l = Z.max a (foldr Z.max b l).
Proof. intros. induction l as [|x l IH]; simpl; [lia | rewrite IH; lia]. Qed.

Lemma foldr_max_ge v l : (v <= foldr Z.max v l)%Z.
Proof. induction l; simpl; lia. Qed.

(** After the fill, a 0/1 column is the running maximum of itself. *)
Lemma pad_running_max xs :
  Forall (fun x => x = 0 \/ x = 1)%Z xs ->
  forall val i, (val = 0 \/ val = 1)%Z -> (i < length xs)%nat ->
  pad 0 val xs !! i = Some (foldr Z.max val (take (S i) xs)).
Proof.
  induction 1 as [|x r Hx _ IH]; intros val i Hval Hi; [simpl in Hi; lia|].
  simpl pad. case_bool_decide as Hx0.
  - subst x. destruct i as [|i]; simpl.
    + f_equal. lia.
    + simpl in Hi. rewrite IH by (done || lia).
      f_equal. pose proof (foldr_max_ge val (take (S i) r)). simpl in *. lia.
  - assert (x = 1)%Z as -> by lia. destruct i as [|i]; simpl.
    + f_equal. lia.
    + simpl in Hi. rewrite IH by (auto || lia).
      f_equal. rewrite (foldr_max_base 1 val) by lia. simpl. lia.
Qed.

Lemma replace_ffill_running_max xs i :
  Forall (fun x => x = 0 \/ x = 1)%Z xs -> (i < length xs)%nat ->
  replace_ffill 0 xs !! i = Some (foldr Z.max 0%Z (take (S i) xs)).
Proof.
  intros Hxs Hi. destruct xs as [|x0 r]; [simpl in Hi; lia|].
  unfold replace_ffill. inversion Hxs as [|? ? Hx0 _]; subst.
  rewrite pad_running_max by done.
  f_equal. rewrite (foldr_max_base x0 0) by lia.
  pose proof (foldr_max_ge 0 (take (S i) (x0 :: r))) as Hge.
  simpl in *. lia.
Qed.

Lemma replace_ffill_length v xs : length (replace_ffill v xs) = length xs.
Proof.
  destruct xs as [|x0 r]; [done|]. unfold replace_ffill.
  generalize x0 at 1. induction (x0 :: r) as [|x l IH]; intros val; simpl; [done|].
  case_bool_decide; simpl; by rewrite IH.
Qed.

Lemma running_max_mono (xs : list Z) i j :
  (i <= j)%nat ->
  (foldr Z.max 0 (take (S i) xs) <= foldr Z.max 0 (take (S j) xs))%Z.
Proof.
  intros Hij.
  replace (take (S i) xs) with (take (S i) (take (S j) xs))
    by (rewrite take_take; f_equal; lia).
  rewrite <- (take_drop (S i) (take (S j) xs)) at 2.
  rewrite foldr_app.
  generalize (take (S i) (take (S j) xs)) as l.
  pose proof (foldr_max_ge 0 (drop (S i) (take (S j) xs))) as Hge.
  revert Hge. generalize (foldr Z.max 0%Z (drop (S i) (take (S j) xs))) as b.
  intros b Hb l. induction l; simpl; lia.
Qed.

Lemma running_max_binary (xs : list Z) :
  Forall (fun x => x = 0 \/ x = 1)%Z xs ->
  (foldr Z.max 0 xs = 0 \/ foldr Z.max 0 xs = 1)%Z.
Proof. induction 1; simpl; lia. Qed.

Lemma running_max_one (xs : list Z) :
  Forall (fun x => x = 0 \/ x = 1)%Z xs ->
  foldr Z.max 0%Z xs = 1%Z <-> 1%Z ∈ xs.
Proof.
  induction 1 as [|x r Hx Hr IH]; simpl.
  - split; [lia | by intros ?%elem_of_nil].
  - rewrite elem_of_cons. pose proof (running_max_binary r Hr). 
    split.
    + intros Hm. destruct Hx as [->| ->]; [right; apply IH; lia | by left].
    + intros [<-|Hin]; [lia | apply IH in Hin; lia].
Qed.

Lemma to_floats_length c : length (to_floats c) = col_length c.
Proof. destruct c; simpl; [done | by rewrite length_fmap]. Qed.

Lemma dropna_defined (cs : list Q) : dropna (Some <$> cs) = cs.
Proof.
  induction cs as [|c cs IH]; [done|]. rewrite fmap_cons. simpl. by rewrite IH.
Qed.

(** On closes that are all defined, the average over [w] rows exists from
    row [w - 1] on and is the mean of the last [w] closes. *)
Lemma rolling_mean_defined (cs : list Q) w i :
  (0 < w)%nat -> (i < length cs)%nat ->
  rolling_mean w (Some <$> cs) !! i
  = Some (if bool_decide (w <= S i)%nat
          then Some (Qsum (drop (S i - w) (take (S i) cs)) / Qnat w)%Q
          else None).
Proof.
  intros Hw Hi. unfold rolling_mean, window_at.
  rewrite list_lookup_imap, list_lookup_fmap.
  destruct (lookup_lt_is_Some_2 cs i Hi) as [c ->]. simpl. f_equal.
  rewrite <- fmap_take, <- fmap_drop, dropna_defined.
  assert (length (drop (S i - w) (take (S i) cs)) = Nat.min w (S i)) as Hlen
    by (rewrite length_drop, length_take; lia).
  rewrite Hlen.
  case_bool_decide as Hle.
  - rewrite bool_decide_eq_true_2 by lia. by rewrite Nat.min_l by lia.
  - by rewrite bool_decide_eq_false_2 by lia.
Qed.

(** What the fill does to a 0/1 signal: the position is 1 from the first
    row whose signal is 1 onwards. *)
Lemma position_long_iff_signal_was_long (signal : list Z) i :
  Forall (fun x => x = 0 \/ x = 1)%Z signal -> (i < length signal)%nat ->
  replace_ffill 0 signal !! i = Some 1%Z
  <-> exists j, (j <= i)%nat /\ signal !! j = Some 1%Z.
Proof.
  intros Hbin Hi. rewrite replace_ffill_running_max by done.
  split.
  - intros [= Hmax]. apply running_max_one in Hmax; [|by apply Forall_take].
    apply list_elem_of_lookup_1 in Hmax as (j & Hj).
    apply lookup_take_Some in Hj as [Hj Hlt]. exists j. split; [lia | done].
  - intros (j & Hj & Hone). f_equal.
    apply running_max_one; [by apply Forall_take|].
    apply (list_elem_of_lookup_2 _ j). rewrite lookup_take_lt by lia. done.
Qed.

(** ** Signals and positions *)

(** C2.  At every row where both moving averages are defined, the signal
    is Long (1) exactly when the short average is strictly above the long
    one; when it is not, and in particular when the two are equal, the
    signal is Flat (0); at a row where either average is undefined the
    signal is Flat (0). *)
Theorem signal_long_iff_short_sma_above_long_sma
    df short_window long_window close :
  well_formed df ->
  getitem df "Close" = Some close ->
  (0 < short_window < long_window)%nat ->
  exists df',
    calculate_signals df short_window long_window = Returns df' /\
    length (ints_of df' "Signal") = length (index df) /\
    forall i s l,
      floats_of df' (sma_name short_window) !! i = Some s ->
      floats_of df' (sma_name long_window) !! i = Some l ->
      (forall a b, s = Some a -> l = Some b ->
         (ints_of df' "Signal" !! i = Some 1%Z <-> (b < a)%Q) /\
         (~ (b < a)%Q -> ints_of df' "Signal" !! i = Some 0%Z) /\
         ((a == b)%Q -> ints_of df' "Signal" !! i = Some 0%Z)) /\
      (s = None \/ l = None -> ints_of df' "Signal" !! i = Some 0%Z).
Proof.
  intros Hwf Hclose _.
  destruct (calculate_signals_returns df short_window long_window close Hclose)
    as (df' & Hret & _ & Hs & Hl & Hsig & _).
  assert (Hlen : length (to_floats close) = length (index df))
    by (rewrite to_floats_length; eauto).
  exists df'. split; [done|]. rewrite Hs, Hl, Hsig, <- Hlen.
  split; [apply signal_column_length|].
  intros i s l His Hil.
  assert (Hi : (i < length (to_floats close))%nat).
  { apply lookup_lt_Some in His. by rewrite rolling_mean_length in His. }
  rewrite (signal_column_lookup _ _ _ _ _ _ _ His Hil Hi).
  split.
  - intros a b -> ->. pose proof (fgt_spec a b) as Hgt.
    destruct (fgt (Some a) (Some b)); repeat split; try done.
    + intros _. by apply Hgt.
    + intros Hn. destruct Hn. by apply Hgt.
    + intros Heq. assert (b < a)%Q as Hlt by by apply Hgt.
      rewrite Heq in Hlt. by apply Qlt_irrefl in Hlt.
    + intros Hlt. apply Hgt in Hlt. discriminate.
  - intros [-> | ->]; [done | by rewrite fgt_nan_r].
Qed.

Lemma signal_long_iff_short_sma_above_long_sma_witness :
  well_formed up_then_down /\
  getitem up_then_down "Close" = Some (Floats [Some 1%Q; Some 2%Q; Some 1%Q]) /\
  (0 < 1 < 2)%nat /\
  exists df',
    calculate_signals up_then_down 1 2 = Returns df' /\
    length (ints_of df' "Signal") = length (index up_then_down).
Proof.
  assert (Hwf : well_formed up_then_down)
    by (apply (bool_decide_unpack _); by vm_compute).
  assert (Hclose : getitem up_then_down "Close"
                   = Some (Floats [Some 1%Q; Some 2%Q; Some 1%Q]))
    by reflexivity.
  assert (Hw : (0 < 1 < 2)%nat) by lia.
  split; [exact Hwf|]. split; [exact Hclose|]. split; [exact Hw|].
  destruct (signal_long_iff_short_sma_above_long_sma
              up_then_down 1 2 _ Hwf Hclose Hw) as (df' & Hret & Hlen & _).
  exists df'. by split.
Defined.

(** C10.  The position column never decreases: a later position is at
    least an earlier one, so once the position is Long (1) at a row it is
    Long at every later row, whatever the later signals are. *)
Theorem position_never_returns_to_flat df short_window long_window close :
  well_formed df ->
  getitem df "Close" = Some close ->
  (0 < short_window < long_window)%nat ->
  exists df',
    calculate_signals df short_window long_window = Returns df' /\
    length (ints_of df' "Position") = length (index df) /\
    (forall i j p q, (i <= j)%nat ->
       ints_of df' "Position" !! i = Some p ->
       ints_of df' "Position" !! j = Some q -> (p <= q)%Z) /\
    (forall i j, (i <= j < length (index df))%nat ->
       ints_of df' "Position" !! i = Some 1%Z ->
       ints_of df' "Position" !! j = Some 1%Z).
Proof.
  intros Hwf Hclose _.
  destruct (calculate_signals_returns df short_window long_window close Hclose)
    as (df' & Hret & _ & _ & _ & _ & Hpos).
  assert (Hlen : length (to_floats close) = length (index df))
    by (rewrite to_floats_length; eauto).
  exists df'. split; [done|]. rewrite Hpos, <- Hlen.
  set (sig := signal_column short_window long_window (to_floats close)
                (length (to_floats close))).
  assert (Hbin : Forall (fun x => x = 0 \/ x = 1)%Z sig)
    by apply signal_column_binary.
  assert (Hsl : length sig = length (to_floats close))
    by apply signal_column_length.
  assert (Hmono : forall i j p q, (i <= j)%nat ->
            replace_ffill 0 sig !! i = Some p ->
            replace_ffill 0 sig !! j = Some q -> (p <= q)%Z).
  { intros i j p q Hij Hp Hq.
    assert (j < length sig)%nat as Hj
      by (apply lookup_lt_Some in Hq; by rewrite replace_ffill_length in Hq).
    rewrite replace_ffill_running_max in Hp, Hq by (done || lia).
    injection Hp as <-. injection Hq as <-. by apply running_max_mono. }
  split; [by rewrite replace_ffill_length|]. split; [done|].
  intros i j [Hij Hj] Hp. rewrite <- Hsl in Hj.
  pose proof (replace_ffill_running_max sig j Hbin Hj) as Hq.
  pose proof (Hmono i j _ _ Hij Hp Hq) as Hle.
  rewrite Hq. f_equal.
  destruct (running_max_binary (take (S j) sig)) as [E|E];
    [by apply Forall_take | lia | done].
Qed.

Lemma position_never_returns_to_flat_witness :
  well_formed up_then_down /\
  getitem up_then_down "Close" = Some (Floats [Some 1%Q; Some 2%Q; Some 1%Q]) /\
  (0 < 1 < 2)%nat /\
  exists df',
    calculate_signals up_then_down 1 2 = Returns df' /\
    (ints_of df' "Position" !! 1%nat = Some 1%Z ->
     ints_of df' "Position" !! 2%nat = Some 1%Z).
Proof.
  assert (Hwf : well_formed up_then_down)
    by (apply (bool_decide_unpack _); by vm_compute).
  assert (Hclose : getitem up_then_down "Close"
                   = Some (Floats [Some 1%Q; Some 2%Q; Some 1%Q]))
    by reflexivity.
  assert (Hw : (0 < 1 < 2)%nat) by lia.
  split; [exact Hwf|]. split; [exact Hclose|]. split; [exact Hw|].
  destruct (position_never_returns_to_flat
              up_then_down 1 2 _ Hwf Hclose Hw) as (df' & Hret & _ & _ & Hlatch).
  exists df'. split; [exact Hret|].
  apply Hlatch. simpl. lia.
Defined.

(** C1.  The position is not the forward-fill of the signal.  On the
    closes 1, 2, 1 with windows 1 and 2 both averages are defined at the
    last row, the short one is not above the long one and the signal is
    Flat (0) there, after having been Long (1); yet the position at that row
    is Long (1). *)
Theorem position_stays_long_after_flat_signal :
  exists df' a b,
    calculate_signals up_then_down 1 2 = Returns df' /\
    floats_of df' (sma_name 1) !! 2%nat = Some (Some a) /\
    floats_of df' (sma_name 2) !! 2%nat = Some (Some b) /\
    ~ (b < a)%Q /\
    ints_of df' "Signal" = [0; 1; 0]%Z /\
    ints_of df' "Position" = [0; 1; 1]%Z.
Proof.
  eexists _, _, _. split; [vm_compute; reflexivity|].
  split; [vm_compute; reflexivity|]. split; [vm_compute; reflexivity|].
  split; [|split; vm_compute; reflexivity].
  vm_compute. discriminate.
Qed.

(** ** Frame: which columns a call may touch *)



Lemma only_changes_refl names df : only_changes names df df.
Proof. by split. Qed.

Lemma only_changes_setitem names df df' name c :
  name ∈ names -> only_changes names df df' ->
  only_changes names df (setitem name c df').
Proof.
  intros Hin [Hidx Hcols]. split; [done|].
  intros name' Hout. rewrite getitem_setitem_ne; [by apply Hcols|].
  by intros ->.
Qed.

Lemma only_changes_with_column names df df' name k :
  only_changes names df df' ->
  (forall c, only_changes names df (state_after (k c))) ->
  only_changes names df (state_after (with_column df' name k)).
Proof. intros Hdf Hk. unfold with_column. by destruct (getitem df' name). Qed.

Lemma fillna_keeps names df df' name v c :
  name ∈ names -> only_changes names df df' ->
  only_changes names df (setitem name (fillna v c) df').
Proof. apply only_changes_setitem. Qed.

Ltac frame_step :=
  first
    [ apply only_changes_with_column; [|intros ?]
    | apply only_changes_setitem; [set_solver|]
    | apply only_changes_refl ].

Lemma calculate_signals_frame df sw lw :
  only_changes [sma_name sw; sma_name lw; "Signal"; "Position"]
    df (state_after (calculate_signals df sw lw)).
Proof. unfold calculate_signals. cbv zeta. repeat frame_step. Qed.

Lemma calculate_returns_frame df :
  only_changes ["Daily Return"; "Strategy Return"]
    df (state_after (calculate_returns df)).
Proof. unfold calculate_returns. cbv zeta. repeat frame_step. Qed.

(** C9, amended.  Whether they return or raise, [calculate_signals] and
    [calculate_returns] leave the index, the [Close] column, hence the
    sequence of (date, close) pairs, as they found them.  They do change the
    caller's table in place, but only by assigning their own output columns
    (a caller's column of the same name is overwritten): every other column
    is untouched. *)
Theorem engine_only_adds_its_output_columns df short_window long_window :
  let signals := state_after (calculate_signals df short_window long_window) in
  let returns := state_after (calculate_returns df) in
  (index signals = index df /\
   getitem signals "Close" = getitem df "Close" /\
   zip (index signals) (floats_of signals "Close")
     = zip (index df) (floats_of df "Close") /\
   forall name,
     name ∉ [sma_name short_window; sma_name long_window; "Signal"; "Position"] ->
     getitem signals name = getitem df name) /\
  (index returns = index df /\
   getitem returns "Close" = getitem df "Close" /\
   zip (index returns) (floats_of returns "Close")
     = zip (index df) (floats_of df "Close") /\
   forall name,
     name ∉ ["Daily Return"; "Strategy Return"] ->
     getitem returns name = getitem df name).
Proof.
  intros signals returns.
  destruct (calculate_signals_frame df short_window long_window) as [Hi1 Hc1].
  destruct (calculate_returns_frame df) as [Hi2 Hc2].
  destruct (sma_name_fresh short_window) as (Hs & _).
  destruct (sma_name_fresh long_window) as (Hl & _).
  assert (H1 : getitem signals "Close" = getitem df "Close").
  { apply Hc1. rewrite !not_elem_of_cons. repeat split; try done.
    apply not_elem_of_nil. }
  assert (H2 : getitem returns "Close" = getitem df "Close").
  { apply Hc2. rewrite !not_elem_of_cons. repeat split; try done.
    apply not_elem_of_nil. }
  unfold floats_of. fold signals returns in Hi1, Hi2, Hc1, Hc2.
  rewrite H1, H2, Hi1, Hi2. done.
Qed.

(** C9, as stated, fails: the outputs are written into the caller's own
    table.  A caller's [Position] column 7, 7, 7 is 0, 1, 1 after
    [calculate_signals], and after either call the table is no longer the
    one the caller had. *)
Lemma caller_table_is_modified_in_place :
  getitem with_position "Position" = Some (Ints [7; 7; 7]%Z) /\
  getitem (state_after (calculate_signals with_position 1 2)) "Position"
    = Some (Ints [0; 1; 1]%Z) /\
  state_after (calculate_signals with_position 1 2) <> with_position /\
  state_after (calculate_returns with_position) <> with_position.
Proof.
  split; [reflexivity|]. split; [reflexivity|]. split.
  - intros E. apply (f_equal (fun df => getitem df "Position")) in E.
    vm_compute in E. discriminate.
  - intros E. apply (f_equal (fun df => getitem df "Daily Return")) in E.
    vm_compute in E. discriminate.
Qed.

(** ** Crossover markers *)

Lemma shift1_lookup {A} (fill : A) xs i :
  shift1 fill xs !! i = if bool_decide (i < length xs)%nat then (fill :: xs) !! i else None.
Proof.
  unfold shift1. case_bool_decide.
  - by rewrite lookup_take_lt.
  - apply lookup_take_ge. lia.
Qed.

Lemma transition_lookup (now before : Z) (signal : list Z) i :
  zip_with andb (eq_scalar now (Some <$> signal))
                (eq_scalar before (shift1 None (Some <$> signal))) !! i = Some true
  <-> (1 <= i)%nat /\ signal !! (i - 1)%nat = Some before /\ signal !! i = Some now.
Proof.
  rewrite lookup_zip_with_Some. unfold eq_scalar.
  setoid_rewrite list_lookup_fmap_Some.
  setoid_rewrite shift1_lookup. rewrite length_fmap.
  split.
  - intros (x & y & Hand & (c & -> & (s & -> & Hs)%list_lookup_fmap_Some)
            & (p & -> & Hp)).
    symmetry in Hand. apply andb_true_iff in Hand as [Hc Hb].
    apply bool_decide_eq_true in Hc, Hb. injection Hc as ->. subst p.
    apply lookup_lt_Some in Hs as Hlt.
    rewrite bool_decide_eq_true_2 in Hp by done.
    destruct i as [|i]; [discriminate|].
    simpl in Hp. apply list_lookup_fmap_Some in Hp as (b & [= ->] & Hb).
    replace (S i - 1)%nat with i by lia. repeat split; [lia | done | done].
  - intros (Hi & Hb & Hn).
    apply lookup_lt_Some in Hn as Hlt.
    exists true, true. split; [done|]. split.
    + exists (Some now). split; [by rewrite bool_decide_eq_true_2|].
      by rewrite list_lookup_fmap, Hn.
    + exists (Some before). split; [by rewrite bool_decide_eq_true_2|].
      rewrite bool_decide_eq_true_2 by done.
      destruct i as [|i]; [lia|]. simpl.
      replace (S i - 1)%nat with i in Hb by lia.
      by rewrite list_lookup_fmap, Hb.
Qed.

(** C8.  The buy mask is true exactly at the rows [i >= 1] whose signal
    is 1 and whose previous signal is 0, the sell mask exactly at the rows
    [i >= 1] whose signal is 0 and whose previous signal is 1; row 0 carries
    no marker.  On the signal 0, 0, 1, 1, 0 there is one buy marker, at the
    third row, and one sell marker, at the fifth. *)
Theorem crossover_markers_at_signal_transitions :
  (forall (signal : list Z) (i : nat),
     (buy_signals signal !! i = Some true <->
        (1 <= i)%nat /\ signal !! (i - 1)%nat = Some 0%Z /\
        signal !! i = Some 1%Z) /\
     (sell_signals signal !! i = Some true <->
        (1 <= i)%nat /\ signal !! (i - 1)%nat = Some 1%Z /\
        signal !! i = Some 0%Z)) /\
  buy_signals [0; 0; 1; 1; 0]%Z = [false; false; true; false; false] /\
  sell_signals [0; 0; 1; 1; 0]%Z = [false; false; false; false; true] /\
  plot_signals crossing 1 2
    = Some {| buy_markers := [(13%Z, Some 12%Q)];
              sell_markers := [(15%Z, Some 9%Q)] |}.
Proof.
  split; [|by vm_compute].
  intros signal i. split; apply transition_lookup.
Qed.

(** ** Returns *)


Lemma calculate_returns_returns df close position :
  getitem df "Close" = Some close ->
  getitem df "Position" = Some position ->
  exists df',
    calculate_returns df = Returns df' /\
    floats_of df' "Daily Return" = pct_change (to_floats close) /\
    floats_of df' "Strategy Return"
      = zip_with fmul (pct_change (to_floats close)) (to_floats position).
Proof.
  intros Hclose Hpos. unfold calculate_returns.
  rewrite (with_column_Some _ _ close) by done. cbv zeta.
  rewrite (with_column_Some _ _ _ _ (getitem_setitem_eq _ _ _)).
  rewrite (with_column_Some _ _ position) by (by rewrite getitem_setitem_ne).
  eexists. split; [reflexivity|]. unfold floats_of.
  rewrite getitem_setitem_eq, getitem_setitem_ne, getitem_setitem_eq by done.
  done.
Qed.

Lemma ffill_defined last (cs : list Q) : ffill last (Some <$> cs) = Some <$> cs.
Proof. revert last. induction cs as [|c cs IH]; intros last; simpl; by rewrite ?IH. Qed.

Lemma pct_change_first (cs : list Q) :
  (1 <= length cs)%nat -> pct_change (Some <$> cs) !! 0%nat = Some None.
Proof.
  unfold pct_change. rewrite ffill_defined.
  destruct cs as [|c cs]; simpl; [lia | done].
Qed.

Lemma pct_change_next (cs : list Q) i c0 c1 :
  cs !! i = Some c0 -> cs !! S i = Some c1 -> ~ (c0 == 0)%Q ->
  pct_change (Some <$> cs) !! S i = Some (Some (c1 / c0 - 1)%Q).
Proof.
  intros H0 H1 Hnz. unfold pct_change. rewrite ffill_defined.
  rewrite lookup_zip_with, shift1_lookup, length_fmap.
  apply lookup_lt_Some in H1 as Hlt.
  rewrite bool_decide_eq_true_2 by done. simpl.
  rewrite !list_lookup_fmap, H0, H1. simpl.
  destruct (Qeq_bool c0 0) eqn:E; [|done].
  by apply Qeq_bool_iff in E.
Qed.

(** C7.  On a table of positive closes with a position column, the daily
    return is undefined at row 0 and is [close[i] / close[i-1] - 1] at every
    later row; the strategy return is the daily return times the position
    at every row: the daily return itself where the position is 1, zero
    where the position is 0 and the daily return is defined.  When all
    closes are equal every defined daily return is zero. *)
Theorem strategy_return_is_daily_return_times_position
    df (closes : list Q) (position : list Z) :
  well_formed df ->
  getitem df "Close" = Some (Floats (Some <$> closes)) ->
  getitem df "Position" = Some (Ints position) ->
  (1 <= length closes)%nat ->
  Forall (fun c => 0 < c)%Q closes ->
  exists df',
    calculate_returns df = Returns df' /\
    floats_of df' "Daily Return" !! 0%nat = Some None /\
    (forall i c0 c1, closes !! i = Some c0 -> closes !! S i = Some c1 ->
       floats_of df' "Daily Return" !! S i = Some (Some (c1 / c0 - 1)%Q)) /\
    (forall i d p,
       floats_of df' "Daily Return" !! i = Some d ->
       position !! i = Some p ->
       exists s,
         floats_of df' "Strategy Return" !! i = Some s /\
         s = fmul d (Some (inject_Z p)) /\
         (p = 1%Z -> feq s d) /\
         (p = 0%Z -> (1 <= i)%nat -> feq s (Some 0%Q))) /\
    (forall k, Forall (fun c => c == k)%Q closes ->
       forall i d, floats_of df' "Daily Return" !! i = Some (Some d) ->
       (d == 0)%Q).
Proof.
  intros Hwf Hclose Hpos Hlen Hgt.
  destruct (calculate_returns_returns df _ _ Hclose Hpos)
    as (df' & Hret & Hdaily & Hstrat).
  cbn [to_floats] in Hdaily, Hstrat.
  assert (Hnext : forall i c0 c1, closes !! i = Some c0 ->
            closes !! S i = Some c1 ->
            pct_change (Some <$> closes) !! S i = Some (Some (c1 / c0 - 1)%Q)).
  { intros i c0 c1 H0 H1. apply pct_change_next; [done..|].
    rewrite Forall_lookup in Hgt. specialize (Hgt _ _ H0).
    intros E. rewrite E in Hgt. by apply Qlt_irrefl in Hgt. }
  exists df'. rewrite Hdaily, Hstrat.
  split; [done|]. split; [by apply pct_change_first|]. split; [done|].
  split.
  - intros i d p Hd Hp. eexists. split; [|split; [reflexivity|]].
    + rewrite lookup_zip_with, Hd. simpl.
      by rewrite list_lookup_fmap, Hp.
    + split.
      * intros ->. destruct d as [q|]; constructor. simpl. ring.
      * intros -> Hi. destruct i as [|i]; [lia|].
        apply lookup_lt_Some in Hp as Hlt.
        assert (S i < length closes)%nat as Hlt'.
        { pose proof (Hwf _ _ Hclose) as E1. pose proof (Hwf _ _ Hpos) as E2.
          simpl in E1, E2. rewrite length_fmap in E1. lia. }
        destruct (lookup_lt_is_Some_2 closes i) as [c0 H0]; [lia|].
        destruct (lookup_lt_is_Some_2 closes (S i)) as [c1 H1]; [lia|].
        assert (d = Some (c1 / c0 - 1)%Q) as ->
          by (apply (inj Some); etrans; [symmetry; exact Hd | by apply Hnext]).
        constructor. simpl. ring.
  - intros k Hk i d Hd. destruct i as [|i].
    + rewrite pct_change_first in Hd by done. discriminate.
    + apply lookup_lt_Some in Hd as Hlt.
      unfold pct_change in Hlt.
      rewrite length_zip_with, ffill_defined, length_fmap in Hlt.
      unfold shift1 in Hlt. rewrite length_take, length_fmap in Hlt.
      destruct (lookup_lt_is_Some_2 closes i) as [c0 H0]; [lia|].
      destruct (lookup_lt_is_Some_2 closes (S i)) as [c1 H1]; [lia|].
      assert (Some d = Some (c1 / c0 - 1)%Q) as [= ->]
        by (apply (inj Some); etrans; [symmetry; exact Hd | by apply Hnext]).
      rewrite Forall_lookup in Hk, Hgt.
      pose proof (Hk _ _ H0) as E0. pose proof (Hk _ _ H1) as E1.
      pose proof (Hgt _ _ H0) as P0.
      rewrite E1, <- E0. field. intros E. rewrite E in P0.
      by apply Qlt_irrefl in P0.
Qed.

Lemma strategy_return_is_daily_return_times_position_witness :
  well_formed after_signals /\
  getitem after_signals "Close" = Some (Floats (Some <$> [1; 2; 1]%Q)) /\
  getitem after_signals "Position" = Some (Ints [0; 1; 1]%Z) /\
  Forall (fun c => 0 < c)%Q [1; 2; 1]%Q /\
  exists df',
    calculate_returns after_signals = Returns df' /\
    floats_of df' "Daily Return" !! 0%nat = Some None /\
    floats_of df' "Daily Return" !! 1%nat = Some (Some (2 / 1 - 1)%Q).
Proof.
  assert (Hwf : well_formed after_signals)
    by (apply (bool_decide_unpack _); by vm_compute).
  assert (Hclose : getitem after_signals "Close"
                   = Some (Floats (Some <$> [1; 2; 1]%Q))) by reflexivity.
  assert (Hpos : getitem after_signals "Position" = Some (Ints [0; 1; 1]%Z))
    by reflexivity.
  assert (Hgt : Forall (fun c => 0 < c)%Q [1; 2; 1]%Q)
    by (repeat constructor).
  split; [exact Hwf|]. split; [exact Hclose|]. split; [exact Hpos|].
  split; [exact Hgt|].
  destruct (strategy_return_is_daily_return_times_position
              after_signals [1; 2; 1]%Q [0; 1; 1]%Z Hwf Hclose Hpos)
    as (df' & Hret & Hfirst & Hnext & _); [simpl; lia | exact Hgt |].
  exists df'. split; [exact Hret|]. split; [exact Hfirst|].
  by apply Hnext.
Defined.

(** ** Running folds *)


Lemma cumulate_length f acc xs : length (cumulate f acc xs) = length xs.
Proof. revert acc. induction xs as [|x r IH]; intros acc; simpl; by rewrite ?IH. Qed.

Lemma accumulate_length f xs : length (accumulate f xs) = length xs.
Proof. destruct xs; simpl; by rewrite ?cumulate_length. Qed.

Lemma cumulate_lookup_S f xs :
  forall acc i v x,
    cumulate f acc xs !! i = Some v -> xs !! S i = Some x ->
    cumulate f acc xs !! S i = Some (f v x).
Proof.
  induction xs as [|y r IH]; intros acc i v x Hv Hx; [done|].
  destruct i as [|i]; simpl in *.
  - injection Hv as <-. destruct r as [|z r]; simpl in *; [done|].
    by injection Hx as ->.
  - by apply IH.
Qed.

Lemma accumulate_lookup_0 f xs : accumulate f xs !! 0%nat = xs !! 0%nat.
Proof. by destruct xs. Qed.

Lemma accumulate_lookup_S f xs i v x :
  accumulate f xs !! i = Some v -> xs !! S i = Some x ->
  accumulate f xs !! S i = Some (f v x).
Proof.
  destruct xs as [|x0 r]; [done|]. destruct i as [|i]; simpl.
  - intros [= <-] Hx. destruct r as [|z r]; simpl in *; [done|].
    by injection Hx as ->.
  - apply cumulate_lookup_S.
Qed.

(** ** The wealth curve and its running peak *)

Lemma Qprod_app xs ys : (Qprod (xs ++ ys) == Qprod xs * Qprod ys)%Q.
Proof.
  induction xs as [|x xs IH]; simpl; [ring|]. rewrite IH. ring.
Qed.

Lemma wealth_0 r rest : (wealth (r :: rest) 0 == 1 + r)%Q.
Proof. unfold wealth. simpl. ring. Qed.

Lemma wealth_S rs i r :
  rs !! S i = Some r -> (wealth rs (S i) == wealth rs i * (1 + r))%Q.
Proof.
  intros Hr. unfold wealth. rewrite (take_S_r rs (S i) r Hr).
  rewrite fmap_app, Qprod_app. simpl. ring.
Qed.

Lemma curve_lookup rs i :
  (i < length rs)%nat ->
  exists w p,
    cumprod (Qplus 1 <$> rs) !! i = Some w /\
    cummax (cumprod (Qplus 1 <$> rs)) !! i = Some p /\
    (w == wealth rs i)%Q /\ (p == running_peak rs i)%Q.
Proof.
  unfold cumprod, cummax. induction i as [|i IH]; intros Hi.
  - destruct rs as [|r rest]; [simpl in Hi; lia|].
    exists (1 + r)%Q, (1 + r)%Q. simpl.
    pose proof (wealth_0 r rest) as E. by rewrite E.
  - destruct IH as (w & p & Hw & Hp & Ew & Ep); [lia|].
    destruct (lookup_lt_is_Some_2 rs (S i) Hi) as [r Hr].
    assert (Hy : (Qplus 1 <$> rs) !! S i = Some (1 + r)%Q)
      by (by rewrite list_lookup_fmap, Hr).
    pose proof (accumulate_lookup_S Qmult _ _ _ _ Hw Hy) as Hw'.
    pose proof (accumulate_lookup_S Qmax _ _ _ _ Hp Hw') as Hp'.
    exists (w * (1 + r))%Q, (Qmax p (w * (1 + r)))%Q.
    split; [done|]. split; [done|].
    assert (w * (1 + r) == wealth rs (S i))%Q as E
      by (rewrite (wealth_S rs i r Hr), Ew; reflexivity).
    split; [done|]. simpl. by rewrite Ep, E.
Qed.

Lemma wealth_le_peak rs i : (wealth rs i <= running_peak rs i)%Q.
Proof. destruct i; simpl; [apply Qle_refl | apply Q.le_max_r]. Qed.

Lemma first_le_peak rs i : (wealth rs 0 <= running_peak rs i)%Q.
Proof.
  induction i as [|i IH]; simpl; [apply Qle_refl|].
  eapply Qle_trans; [exact IH | apply Q.le_max_l].
Qed.

Lemma peak_of_rising_curve rs i :
  (forall k, (k < i)%nat -> wealth rs k <= wealth rs (S k))%Q ->
  (running_peak rs i == wealth rs i)%Q.
Proof.
  induction i as [|i IH]; intros Hup; simpl; [reflexivity|].
  rewrite IH by (intros k Hk; apply Hup; lia).
  apply Q.max_r. apply Hup. lia.
Qed.

Lemma drawdown_nonpositive rs i :
  (0 < wealth rs 0)%Q -> (drawdown_at rs i <= 0)%Q.
Proof.
  intros Hpos. unfold drawdown_at.
  pose proof (wealth_le_peak rs i). pose proof (first_le_peak rs i).
  apply Qle_shift_div_r; lra.
Qed.

Lemma drawdown_series_length rs : length (drawdown_series rs) = length rs.
Proof.
  unfold drawdown_series, cummax, cumprod.
  rewrite length_zip_with, !accumulate_length, length_fmap. lia.
Qed.

Lemma drawdown_series_lookup rs i :
  (0 < wealth rs 0)%Q -> (i < length rs)%nat ->
  exists d, drawdown_series rs !! i = Some (Some d) /\
            (d == drawdown_at rs i)%Q.
Proof.
  intros Hpos Hi. destruct (curve_lookup rs i Hi) as (w & p & Hw & Hp & Ew & Ep).
  pose proof (first_le_peak rs i) as Hfirst.
  exists ((w - p) / p)%Q. split.
  - unfold drawdown_series. rewrite lookup_zip_with, Hw. simpl. rewrite Hp. simpl.
    destruct (Qeq_bool p 0) eqn:E; [|done].
    apply Qeq_bool_iff in E. lra.
  - unfold drawdown_at. by rewrite Ew, Ep.
Qed.

(** ** The minimum that skips NaN *)

Lemma elem_of_dropna d xs : d ∈ dropna xs <-> Some d ∈ xs.
Proof.
  induction xs as [|[x|] r IH]; simpl.
  - by rewrite !elem_of_nil.
  - rewrite !elem_of_cons, IH.
    split; (intros [E|Hin]; [left; congruence | by right]).
  - rewrite elem_of_cons, IH. split; [by right | by intros [E|Hin]].
Qed.

Lemma foldl_Qmin_spec r :
  forall x,
    (foldl Qmin x r <= x)%Q /\
    (forall d, d ∈ r -> foldl Qmin x r <= d)%Q /\
    ((foldl Qmin x r == x)%Q \/ exists d, d ∈ r /\ (foldl Qmin x r == d)%Q).
Proof.
  induction r as [|y r IH]; intros x; simpl.
  - split; [apply Qle_refl|]. split; [by intros d ?%elem_of_nil | left; reflexivity].
  - destruct (IH (Qmin x y)) as (Hle & Hall & Hex).
    pose proof (Q.le_min_l x y). pose proof (Q.le_min_r x y).
    split; [lra|]. split.
    + intros d [->|Hd]%elem_of_cons; [lra | by apply Hall].
    + destruct Hex as [E|(d & Hd & E)].
      * destruct (Q.min_spec x y) as [[_ E']|[_ E']].
        -- left. by rewrite E.
        -- right. exists y. split; [by left | by rewrite E].
      * right. exists d. split; [by right | done].
Qed.

Lemma fmin_spec xs d0 :
  Some d0 ∈ xs ->
  exists m, fmin xs = Some m /\
    (forall d, Some d ∈ xs -> m <= d)%Q /\
    (exists d, Some d ∈ xs /\ (m == d)%Q).
Proof.
  intros Hin. unfold fmin.
  apply elem_of_dropna in Hin.
  setoid_rewrite <- elem_of_dropna.
  destruct (dropna xs) as [|x r]; [by apply elem_of_nil in Hin|].
  destruct (foldl_Qmin_spec r x) as (Hle & Hall & Hex).
  eexists. split; [reflexivity|]. split.
  - intros d [->|Hd]%elem_of_cons; [done | by apply Hall].
  - destruct Hex as [E|(d & Hd & E)].
    + exists x. split; [by left | done].
    + exists d. split; [by right | done].
Qed.

(** ** The report *)

Section AnalyzerProperties.

Variable Qpow : Q -> Q -> Q.
Variable Qsqrt : Q -> Q.

Lemma report_numeric returns name :
  (2 <= length (dropna returns))%nat ->
  exists values, get_performance_report Qpow Qsqrt returns name = Statistics name values /\
    cumulative_return values
      = (Qprod (Qplus 1 <$> dropna returns) - 1)%Q /\
    annualized_return values
      = (if bool_decide (252 < length (dropna returns))%nat
         then (Qpow (1 + cumulative_return values)
                    (252 / Qnat (length (dropna returns))) - 1)%Q
         else cumulative_return values) /\
    annualized_volatility values = (std Qsqrt (dropna returns) * Qsqrt 252)%Q /\
    sharpe_ratio values
      = (if negb (Qeq_bool (annualized_volatility values) 0)
         then fdiv (Some (annualized_return values))
                   (Some (annualized_volatility values))
         else Some 0%Q) /\
    max_drawdown values = fmin (drawdown_series (dropna returns)).
Proof.
  intros Hn. unfold get_performance_report.
  rewrite bool_decide_eq_false_2 by lia.
  eexists. split; [reflexivity|]. by repeat split.
Qed.

(** C4.  With fewer than two defined returns the report is the
    placeholder text, which says that there is not enough data; it is not a
    numeric report, and it is a value, not an error. *)
Theorem too_few_returns_give_placeholder returns name :
  (length (dropna returns) < 2)%nat ->
  get_performance_report Qpow Qsqrt returns name
    = NotEnoughData ("Performance Report - " +:+ name +:+ newline
                     +:+ string_repeat "=" 40 +:+ newline
                     +:+ "Not enough data for calculation." +:+ newline
                     +:+ string_repeat "=" 40 +:+ newline)
  /\ forall name' values, get_performance_report Qpow Qsqrt returns name <> Statistics name' values.
Proof.
  intros Hn. unfold get_performance_report.
  rewrite bool_decide_eq_true_2 by done. by split.
Qed.

(** C3.  With [N >= 2] defined returns the report is numeric; its
    annualized return is [(1 + cumulative_return) ** (252 / N) - 1] when
    [N > 252] and the cumulative return itself when [N <= 252]: unchanged at
    [N = 252], the geometric formula at [N = 253]. *)
Theorem annualized_return_branches_at_252 returns name :
  (2 <= length (dropna returns))%nat ->
  exists values,
    get_performance_report Qpow Qsqrt returns name = Statistics name values /\
    cumulative_return values = (Qprod (Qplus 1 <$> dropna returns) - 1)%Q /\
    ((252 < length (dropna returns))%nat ->
       annualized_return values
         = (Qpow (1 + cumulative_return values)
                 (252 / Qnat (length (dropna returns))) - 1)%Q) /\
    ((length (dropna returns) <= 252)%nat ->
       annualized_return values = cumulative_return values) /\
    (length (dropna returns) = 252%nat ->
       annualized_return values = cumulative_return values) /\
    (length (dropna returns) = 253%nat ->
       annualized_return values
         = (Qpow (1 + cumulative_return values) (252 / Qnat 253) - 1)%Q).
Proof.
  intros Hn.
  destruct (report_numeric returns name Hn) as (values & Hrep & Hcum & Hann & _).
  exists values. split; [done|]. split; [done|]. rewrite Hann.
  repeat split; intros Hlen.
  - by rewrite bool_decide_eq_true_2.
  - by rewrite bool_decide_eq_false_2 by lia.
  - by rewrite bool_decide_eq_false_2 by lia.
  - rewrite bool_decide_eq_true_2 by lia. by rewrite Hlen.
Qed.

(** C5.  With at least two defined returns, the Sharpe ratio is the
    annualized return divided by the annualized volatility when the
    volatility is not zero, and 0 when it is zero; it is always a value:
    the division is never reached with a zero divisor. *)
Theorem sharpe_ratio_guards_zero_volatility returns name :
  (2 <= length (dropna returns))%nat ->
  exists values,
    get_performance_report Qpow Qsqrt returns name = Statistics name values /\
    (~ (annualized_volatility values == 0)%Q ->
       sharpe_ratio values
         = Some (annualized_return values / annualized_volatility values)%Q) /\
    ((annualized_volatility values == 0)%Q ->
       sharpe_ratio values = Some 0%Q) /\
    is_Some (sharpe_ratio values).
Proof.
  intros Hn.
  destruct (report_numeric returns name Hn)
    as (values & Hrep & _ & _ & _ & Hsharpe & _).
  exists values. split; [done|]. rewrite Hsharpe. unfold fdiv.
  destruct (Qeq_bool (annualized_volatility values) 0) eqn:E; simpl.
  - apply Qeq_bool_iff in E. by repeat split.
  - apply Qeq_bool_neq in E. by repeat split.
Qed.

(** C6, amended.  For returns [r_1 .. r_N], [N >= 2], whose first return
    is above -1 (as every return of a positive price series is), the
    report's max drawdown is the minimum over [i] of
    [(W_i - P_i) / P_i]: it is below every drawdown and equal to one of
    them; every drawdown is at most 0; and a wealth curve that never falls
    gives a max drawdown of 0.  The returns 0.10, -0.20, 0.10 give a max
    drawdown of -0.20. *)
Theorem max_drawdown_is_worst_decline_from_peak :
  (forall returns name r1 rest,
     dropna returns = r1 :: rest ->
     (1 <= length rest)%nat ->
     (-1 < r1)%Q ->
     let rs := r1 :: rest in
     exists values m,
       get_performance_report Qpow Qsqrt returns name = Statistics name values /\
       max_drawdown values = Some m /\
       (forall i, (i < length rs)%nat -> m <= drawdown_at rs i)%Q /\
       (exists i, (i < length rs)%nat /\ (m == drawdown_at rs i)%Q) /\
       (forall i, (i < length rs)%nat -> drawdown_at rs i <= 0)%Q /\
       ((forall i, (S i < length rs)%nat -> wealth rs i <= wealth rs (S i))%Q ->
        (m == 0)%Q)) /\
  (exists values m,
     get_performance_report Qpow Qsqrt [Some (1 # 10); Some (-2 # 10); Some (1 # 10)]%Q "Strategy"
       = Statistics "Strategy" values /\
     max_drawdown values = Some m /\
     (m == -2 # 10)%Q /\
     (Qabs (m - (-2 # 10)) <= 1 # 1000000000)%Q).
Proof.
  split.
  - intros returns name r1 rest Hdrop Hlen Hr1 rs.
    assert (Hn : (2 <= length (dropna returns))%nat)
      by (rewrite Hdrop; simpl; lia).
    destruct (report_numeric returns name Hn)
      as (values & Hrep & _ & _ & _ & _ & Hmdd).
    rewrite Hdrop in Hmdd. fold rs in Hmdd.
    assert (Hpos : (0 < wealth rs 0)%Q)
      by (unfold rs; rewrite wealth_0; lra).
    destruct (drawdown_series_lookup rs 0 Hpos) as (d0 & Hd0 & _);
      [simpl; lia|].
    destruct (fmin_spec (drawdown_series rs) d0) as (m & Hm & Hlow & Hhit);
      [by eapply list_elem_of_lookup_2|].
    assert (Hbelow : forall i, (i < length rs)%nat -> (m <= drawdown_at rs i)%Q).
    { intros i Hi.
      destruct (drawdown_series_lookup rs i Hpos Hi) as (d & Hd & Ed).
      rewrite <- Ed. apply Hlow. by eapply list_elem_of_lookup_2. }
    assert (Hattained :
              exists i, (i < length rs)%nat /\ (m == drawdown_at rs i)%Q).
    { destruct Hhit as (d & Hd & Ed).
      apply list_elem_of_lookup_1 in Hd as (i & Hi).
      apply lookup_lt_Some in Hi as Hlt.
      rewrite drawdown_series_length in Hlt.
      destruct (drawdown_series_lookup rs i Hpos Hlt) as (d' & Hd' & Ed').
      exists i. split; [done|]. rewrite Ed.
      assert (Some d = Some d') as [= ->]
        by (apply (inj Some); etrans; [symmetry; exact Hi | exact Hd']).
      done. }
    exists values, m. split; [done|]. split; [by rewrite Hmdd|].
    split; [done|]. split; [done|].
    split; [intros i _; by apply drawdown_nonpositive|].
    intros Hup. destruct Hattained as (i & Hi & ->).
    unfold drawdown_at.
    rewrite (peak_of_rising_curve rs i) by (intros k Hk; apply Hup; lia).
    pose proof (first_le_peak rs i) as Hfirst.
    rewrite (peak_of_rising_curve rs i) in Hfirst
      by (intros k Hk; apply Hup; lia).
    field. lra.
  - eexists _, _. split; [reflexivity|]. split; [reflexivity|].
    split; [by vm_compute | by vm_compute].
Qed.

End AnalyzerProperties.

Lemma too_few_returns_give_placeholder_witness :
  (length (dropna [None; Some (1 # 10)%Q]) < 2)%nat /\
  get_performance_report (fun base _ => base) (fun x => x)
    [None; Some (1 # 10)%Q] "Buy & Hold"
  = NotEnoughData ("Performance Report - Buy & Hold" +:+ newline
                   +:+ string_repeat "=" 40 +:+ newline
                   +:+ "Not enough data for calculation." +:+ newline
                   +:+ string_repeat "=" 40 +:+ newline).
Proof.
  assert (Hn : (length (dropna [None; Some (1 # 10)%Q]) < 2)%nat)
    by (simpl; lia).
  split; [exact Hn|].
  apply (too_few_returns_give_placeholder (fun base _ => base) (fun x => x)
           [None; Some (1 # 10)%Q] "Buy & Hold" Hn).
Defined.

Lemma annualized_return_branches_at_252_witness :
  (2 <= length (dropna (replicate 253 (Some (1 # 100)%Q))))%nat /\
  exists values,
    get_performance_report (fun base _ => base) (fun x => x)
      (replicate 253 (Some (1 # 100)%Q)) "Strategy"
    = Statistics "Strategy" values /\
    annualized_return values
    = (1 + cumulative_return values - 1)%Q.
Proof.
  assert (Hn : (2 <= length (dropna (replicate 253 (Some (1 # 100)%Q))))%nat)
    by (vm_compute; lia).
  split; [exact Hn|].
  destruct (annualized_return_branches_at_252 (fun base _ => base) (fun x => x)
              (replicate 253 (Some (1 # 100)%Q)) "Strategy" Hn)
    as (values & Hrep & _ & _ & _ & _ & Hgeo).
  exists values. split; [exact Hrep|].
  apply Hgeo. by vm_compute.
Defined.

Lemma sharpe_ratio_guards_zero_volatility_witness :
  (2 <= length (dropna [None; Some 0%Q; Some 0%Q]))%nat /\
  exists values,
    get_performance_report (fun base _ => base) (fun x => x)
      [None; Some 0%Q; Some 0%Q] "Strategy"
    = Statistics "Strategy" values /\
    is_Some (sharpe_ratio values).
Proof.
  assert (Hn : (2 <= length (dropna [None; Some 0%Q; Some 0%Q]))%nat)
    by (simpl; lia).
  split; [exact Hn|].
  destruct (sharpe_ratio_guards_zero_volatility (fun base _ => base)
              (fun x => x) [None; Some 0%Q; Some 0%Q] "Strategy" Hn)
    as (values & Hrep & _ & _ & Hsome).
  exists values. by split.
Defined.

Lemma max_drawdown_is_worst_decline_from_peak_witness :
  dropna [None; Some (1 # 10); Some (-2 # 10); Some (1 # 10)]%Q
    = [1 # 10; -2 # 10; 1 # 10]%Q /\
  (-1 < 1 # 10)%Q /\
  exists values m,
    get_performance_report (fun base _ => base) (fun x => x)
      [None; Some (1 # 10); Some (-2 # 10); Some (1 # 10)]%Q "Strategy"
    = Statistics "Strategy" values /\
    max_drawdown values = Some m /\
    (forall i, (i < 3)%nat ->
       m <= drawdown_at [1 # 10; -2 # 10; 1 # 10] i)%Q.
Proof.
  assert (Hdrop : dropna [None; Some (1 # 10); Some (-2 # 10); Some (1 # 10)]%Q
                  = [1 # 10; -2 # 10; 1 # 10]%Q) by reflexivity.
  assert (Hfirst : (-1 < 1 # 10)%Q) by reflexivity.
  split; [exact Hdrop|]. split; [exact Hfirst|].
  destruct (proj1 (max_drawdown_is_worst_decline_from_peak
                     (fun base _ => base) (fun x => x))
              [None; Some (1 # 10); Some (-2 # 10); Some (1 # 10)]%Q "Strategy"
              (1 # 10)%Q [-2 # 10; 1 # 10]%Q Hdrop)
    as (values & m & Hrep & Hm & Hlow & _); [simpl; lia | exact Hfirst |].
  exists values, m. split; [exact Hrep|]. split; [exact Hm|]. exact Hlow.
Defined.

(** C6, as stated, fails: after a return below -1 the wealth and its
    running peak are negative, and a further fall of the wealth is a
    positive drawdown.  On the returns -2, 1 the wealth is -1, -2, the peak
    -1, -1, and the second drawdown is 1. *)
Lemma drawdown_positive_under_negative_peak :
  ~ (forall i, (i < 2)%nat -> (drawdown_at [-2; 1] i <= 0)%Q) /\
  ~ (forall i d, drawdown_series [-2; 1]%Q !! i = Some (Some d) -> (d <= 0)%Q).
Proof.
  split; intros H.
  - specialize (H 1%nat). vm_compute in H. by apply H.
  - specialize (H 1%nat _ eq_refl). vm_compute in H. by apply H.
Qed.

(** * Further properties *)

(** ** The table after [calculate_signals] *)

Lemma well_formed_setitem name c df :
  well_formed df -> col_length c = length (index df) ->
  well_formed (setitem name c df).
Proof.
  intros Hwf Hc name' c' Hget. simpl.
  destruct (decide (name = name')) as [<-|Hne].
  - rewrite getitem_setitem_eq in Hget. by injection Hget as <-.
  - rewrite getitem_setitem_ne in Hget by done. by apply Hwf in Hget.
Qed.

Lemma setitem_setitem name c c' df :
  setitem name c (setitem name c' df) = setitem name c df.
Proof. unfold setitem; simpl. by rewrite insert_insert_eq. Qed.

Lemma calculate_signals_explicit df sw lw close :
  getitem df "Close" = Some close ->
  let sig := signal_column sw lw (to_floats close) (length (index df)) in
  calculate_signals df sw lw
  = Returns
      (setitem "Position" (Ints (replace_ffill 0 sig))
         (setitem "Signal" (Ints sig)
            (setitem (sma_name lw)
               (Floats (rolling_mean lw (to_floats close)))
               (setitem (sma_name sw)
                  (Floats (rolling_mean sw (to_floats close))) df)))).
Proof.
  intros Hclose sig.
  destruct (sma_name_fresh sw) as (Hs1 & Hs2 & Hs3 & _).
  destruct (sma_name_fresh lw) as (Hl1 & Hl2 & Hl3 & _).
  unfold calculate_signals.
  rewrite (with_column_Some _ _ close) by done.
  rewrite (with_column_Some _ _ close) by (by rewrite getitem_setitem_ne).
  cbv zeta.
  set (S := Floats (rolling_mean sw (to_floats close))).
  set (L := Floats (rolling_mean lw (to_floats close))).
  set (df1 := setitem (sma_name lw) L (setitem (sma_name sw) S df)).
  assert (Hshort : getitem df1 (sma_name sw) = Some S).
  { unfold df1. destruct (decide (sma_name lw = sma_name sw)) as [E|Hne].
    - rewrite E, getitem_setitem_eq. apply sma_name_inj in E.
      unfold S, L. by rewrite E.
    - by rewrite getitem_setitem_ne, getitem_setitem_eq. }
  assert (Hlong : getitem df1 (sma_name lw) = Some L)
    by apply getitem_setitem_eq.
  rewrite (with_column_Some _ _ S) by (by rewrite getitem_setitem_ne).
  rewrite (with_column_Some _ _ L) by (by rewrite getitem_setitem_ne).
  rewrite (with_column_Some _ _ _ _ (getitem_setitem_eq _ _ _)).
  rewrite (with_column_Some _ _ _ _ (getitem_setitem_eq _ _ _)).
  rewrite (with_column_Some _ _ _ _ (getitem_setitem_eq _ _ _)).
  simpl. by rewrite !setitem_setitem.
Qed.

Lemma signal_column_rows sw lw close rows :
  length close = rows -> length (signal_column sw lw close rows) = rows.
Proof. intros <-. apply signal_column_length. Qed.

(** The shape of the table [calculate_signals] returns. *)
Lemma signals_table_shape
    df short_window long_window close :
  well_formed df ->
  getitem df "Close" = Some close ->
  exists df',
    calculate_signals df short_window long_window = Returns df' /\
    well_formed df' /\
    length (floats_of df' (sma_name short_window)) = length (index df') /\
    length (floats_of df' (sma_name long_window)) = length (index df') /\
    length (ints_of df' "Signal") = length (index df') /\
    length (ints_of df' "Position") = length (index df').
Proof.
  intros Hwf Hclose.
  assert (Hlen : length (to_floats close) = length (index df))
    by (rewrite to_floats_length; eauto).
  destruct (calculate_signals_returns df short_window long_window close Hclose)
    as (df' & Hret & Hidx & Hs & Hl & Hsig & Hpos).
  exists df'. split; [done|].
  rewrite Hs, Hl, Hsig, Hpos, Hidx, replace_ffill_length,
    !rolling_mean_length, signal_column_rows by done.
  split; [|done].
  rewrite (calculate_signals_explicit _ _ _ _ Hclose) in Hret.
  injection Hret as <-.
  repeat apply well_formed_setitem; try done; simpl.
  - by rewrite rolling_mean_length.
  - by rewrite rolling_mean_length.
  - by apply signal_column_rows.
  - rewrite replace_ffill_length. by apply signal_column_rows.
Qed.

(** X1.  [calculate_signals] keeps the table well formed: on a well-formed
    table with a [Close] column it returns a table whose columns all have
    the length of the index, among them the two averages, [Signal] and
    [Position]. *)
Theorem calculate_signals_keeps_table_well_formed
    df short_window long_window close :
  well_formed df ->
  getitem df "Close" = Some close ->
  exists df',
    calculate_signals df short_window long_window = Returns df' /\
    well_formed df' /\
    length (floats_of df' (sma_name short_window)) = length (index df') /\
    length (floats_of df' (sma_name long_window)) = length (index df') /\
    length (ints_of df' "Signal") = length (index df') /\
    length (ints_of df' "Position") = length (index df').
Proof. apply signals_table_shape. Qed.

(** X2.  [Signal] and [Position] hold only 0 and 1, and the position at a
    row is 1 exactly when the signal is 1 at that row or at an earlier
    one. *)
Theorem position_is_long_from_first_long_signal
    df short_window long_window close :
  well_formed df ->
  getitem df "Close" = Some close ->
  exists df',
    calculate_signals df short_window long_window = Returns df' /\
    Forall (fun x => x = 0 \/ x = 1)%Z (ints_of df' "Signal") /\
    Forall (fun x => x = 0 \/ x = 1)%Z (ints_of df' "Position") /\
    forall i, (i < length (index df))%nat ->
      ints_of df' "Position" !! i = Some 1%Z
      <-> exists j, (j <= i)%nat /\ ints_of df' "Signal" !! j = Some 1%Z.
Proof.
  intros Hwf Hclose.
  assert (Hlen : length (to_floats close) = length (index df))
    by (rewrite to_floats_length; eauto).
  destruct (calculate_signals_returns df short_window long_window close Hclose)
    as (df' & Hret & _ & _ & _ & Hsig & Hpos).
  exists df'. split; [done|]. rewrite Hpos, Hsig.
  set (sig := signal_column _ _ _ _).
  assert (Hbin : Forall (fun x => x = 0 \/ x = 1)%Z sig)
    by apply signal_column_binary.
  assert (Hrows : length sig = length (index df))
    by by apply signal_column_rows.
  split; [done|]. split.
  - apply Forall_lookup_2. intros i x Hx.
    apply lookup_lt_Some in Hx as Hi. rewrite replace_ffill_length in Hi.
    rewrite replace_ffill_running_max in Hx by done. injection Hx as <-.
    apply running_max_binary. by apply Forall_take.
  - intros i Hi. apply position_long_iff_signal_was_long; [done | lia].
Qed.

Lemma dropna_length_le xs : (length (dropna xs) <= length xs)%nat.
Proof. induction xs as [|[x|] r IH]; simpl; lia. Qed.

Lemma rolling_mean_warm_up w xs i :
  (S i < w)%nat -> (i < length xs)%nat -> rolling_mean w xs !! i = Some None.
Proof.
  intros Hw Hi. unfold rolling_mean, window_at.
  rewrite list_lookup_imap.
  destruct (lookup_lt_is_Some_2 xs i Hi) as [x ->]. simpl. f_equal.
  rewrite bool_decide_eq_false_2; [done|].
  intros [Hle _].
  pose proof (dropna_length_le (drop (S i - w) (take (S i) xs))) as Hd.
  rewrite length_drop, length_take in Hd. lia.
Qed.

(** The rows at which the long window is not yet full. *)
Lemma warm_up_rows_are_flat
    df short_window long_window close :
  well_formed df ->
  getitem df "Close" = Some close ->
  exists df',
    calculate_signals df short_window long_window = Returns df' /\
    (forall i, (S i < long_window)%nat -> (i < length (index df))%nat ->
       floats_of df' (sma_name long_window) !! i = Some None /\
       ints_of df' "Signal" !! i = Some 0%Z /\
       ints_of df' "Position" !! i = Some 0%Z) /\
    ((length (index df) < long_window)%nat ->
       Forall (fun x => x = 0%Z) (ints_of df' "Position")).
Proof.
  intros Hwf Hclose.
  assert (Hlen : length (to_floats close) = length (index df))
    by (rewrite to_floats_length; eauto).
  destruct (calculate_signals_returns df short_window long_window close Hclose)
    as (df' & Hret & _ & _ & Hl & Hsig & Hpos).
  exists df'. split; [done|]. rewrite Hl, Hpos, Hsig.
  set (sig := signal_column _ _ _ _).
  assert (Hbin : Forall (fun x => x = 0 \/ x = 1)%Z sig)
    by apply signal_column_binary.
  assert (Hrows : length sig = length (index df))
    by by apply signal_column_rows.
  assert (Hflat : forall i, (S i < long_window)%nat ->
            (i < length (index df))%nat -> sig !! i = Some 0%Z).
  { intros i Hw Hi.
    destruct (lookup_lt_is_Some_2 (rolling_mean short_window (to_floats close)) i)
      as [s Hs]; [rewrite rolling_mean_length; lia|].
    unfold sig.
    rewrite (signal_column_lookup _ _ _ _ _ s None Hs); [|  |done].
    - by rewrite fgt_nan_r.
    - apply rolling_mean_warm_up; [done | lia]. }
  assert (Hwarm : forall i, (S i < long_window)%nat ->
            (i < length (index df))%nat ->
            replace_ffill 0 sig !! i = Some 0%Z).
  { intros i Hw Hi.
    destruct (lookup_lt_is_Some_2 (replace_ffill 0 sig) i) as [p Hp];
      [rewrite replace_ffill_length; lia|].
    rewrite Hp. f_equal.
    assert (p = 0 \/ p = 1)%Z as [->| ->]; [|done|].
    { rewrite replace_ffill_running_max in Hp by (done || lia).
      injection Hp as <-. apply running_max_binary. by apply Forall_take. }
    apply position_long_iff_signal_was_long in Hp as (j & Hj & Hone);
      [|done|lia].
    rewrite Hflat in Hone by lia. discriminate. }
  split.
  - intros i Hw Hi. split; [|by auto].
    apply rolling_mean_warm_up; [done | lia].
  - intros Hshort. apply Forall_lookup_2. intros i x Hx.
    apply lookup_lt_Some in Hx as Hi. rewrite replace_ffill_length in Hi.
    rewrite Hwarm in Hx by lia. by injection Hx as <-.
Qed.

(** X3.  At the rows before the long window is full (row [i] with
    [i + 1 < long_window]) the long average is undefined and both signal and
    position are 0; a table with fewer rows than [long_window] never takes a
    position. *)
Theorem no_position_before_long_window_fills
    df short_window long_window close :
  well_formed df ->
  getitem df "Close" = Some close ->
  exists df',
    calculate_signals df short_window long_window = Returns df' /\
    (forall i, (S i < long_window)%nat -> (i < length (index df))%nat ->
       floats_of df' (sma_name long_window) !! i = Some None /\
       ints_of df' "Signal" !! i = Some 0%Z /\
       ints_of df' "Position" !! i = Some 0%Z) /\
    ((length (index df) < long_window)%nat ->
       Forall (fun x => x = 0%Z) (ints_of df' "Position")).
Proof. apply warm_up_rows_are_flat. Qed.

(** X4.  Without a [Close] column both functions raise [KeyError] on
    [Close] and leave the table as it was.  With [Close] but without
    [Position], [calculate_returns] raises [KeyError] on [Position] after it
    has written [Daily Return]: the table keeps that new column and is
    otherwise unchanged. *)
Theorem missing_column_raises_key_error df short_window long_window :
  (getitem df "Close" = None ->
     calculate_signals df short_window long_window = KeyError "Close" df /\
     calculate_returns df = KeyError "Close" df) /\
  (forall close, getitem df "Close" = Some close ->
     getitem df "Position" = None ->
     exists df',
       calculate_returns df = KeyError "Position" df' /\
       getitem df' "Daily Return"
         = Some (Floats (pct_change (to_floats close))) /\
       getitem df' "Strategy Return" = getitem df "Strategy Return" /\
       only_changes ["Daily Return"] df df').
Proof.
  split.
  - intros Hnone. unfold calculate_signals, calculate_returns, with_column.
    by rewrite Hnone.
  - intros close Hclose Hpos. unfold calculate_returns.
    rewrite (with_column_Some _ _ close) by done. cbv zeta.
    rewrite (with_column_Some _ _ _ _ (getitem_setitem_eq _ _ _)).
    unfold with_column at 1. rewrite getitem_setitem_ne, Hpos by done.
    eexists. split; [reflexivity|].
    rewrite getitem_setitem_eq, getitem_setitem_ne by done.
    split; [done|]. split; [done|].
    apply only_changes_setitem; [set_solver | apply only_changes_refl].
Qed.

Lemma setitem_id name c df :
  getitem df name = Some c -> setitem name c df = df.
Proof.
  intros Hget. destruct df as [idx cols]. unfold setitem; simpl. f_equal.
  by apply insert_id.
Qed.

(** X5.  Running [calculate_signals] again with the same windows on the
    table it returned gives that same table. *)
Theorem calculate_signals_is_idempotent df short_window long_window close :
  getitem df "Close" = Some close ->
  exists df',
    calculate_signals df short_window long_window = Returns df' /\
    calculate_signals df' short_window long_window = Returns df'.
Proof.
  intros Hclose.
  destruct (sma_name_fresh short_window) as (Hs1 & Hs2 & Hs3 & _).
  destruct (sma_name_fresh long_window) as (Hl1 & Hl2 & Hl3 & _).
  pose proof (calculate_signals_explicit df short_window long_window close Hclose)
    as Hret. cbv zeta in Hret.
  eexists. split; [exact Hret|].
  set (df' := setitem "Position" _ _) in *.
  assert (Hclose' : getitem df' "Close" = Some close).
  { unfold df'. by rewrite !getitem_setitem_ne by done. }
  rewrite (calculate_signals_explicit df' short_window long_window close Hclose').
  cbv zeta. f_equal.
  assert (Hidx : index df' = index df) by done. rewrite Hidx.
  set (S := Floats (rolling_mean short_window (to_floats close))).
  set (L := Floats (rolling_mean long_window (to_floats close))).
  set (sig := signal_column _ _ _ _).
  assert (Hlong : getitem df' (sma_name long_window) = Some L).
  { unfold df'. rewrite !getitem_setitem_ne by done.
    apply getitem_setitem_eq. }
  assert (Hshort : getitem df' (sma_name short_window) = Some S).
  { unfold df'. rewrite !getitem_setitem_ne by done.
    destruct (decide (sma_name long_window = sma_name short_window)) as [E|Hne].
    - rewrite E, getitem_setitem_eq. apply sma_name_inj in E.
      unfold S, L. by rewrite E.
    - by rewrite getitem_setitem_ne, getitem_setitem_eq. }
  rewrite (setitem_id _ S df') by done.
  rewrite (setitem_id _ L df') by done.
  rewrite (setitem_id "Signal" _ df')
    by (unfold df'; by rewrite getitem_setitem_ne, getitem_setitem_eq).
  apply setitem_id. unfold df'. by rewrite getitem_setitem_eq.
Qed.

(** ** The table after [calculate_returns] *)

Lemma shift1_length {A} (fill : A) xs : length (shift1 fill xs) = length xs.
Proof. unfold shift1. rewrite length_take. simpl. lia. Qed.

Lemma shift1_cons {A} (fill x : A) r :
  shift1 fill (x :: r) = fill :: shift1 x r.
Proof. reflexivity. Qed.

Lemma ffill_length last xs : length (ffill last xs) = length xs.
Proof.
  revert last. induction xs as [|[x|] r IH]; intros last; simpl; by rewrite ?IH.
Qed.

Lemma pct_change_length xs : length (pct_change xs) = length xs.
Proof.
  unfold pct_change. rewrite length_zip_with, shift1_length, ffill_length. lia.
Qed.

(** The first daily return is undefined, whatever the closes are. *)
Lemma pct_change_head xs :
  (1 <= length xs)%nat -> pct_change xs !! 0%nat = Some None.
Proof.
  intros Hlen. unfold pct_change.
  destruct (ffill None xs) as [|d r] eqn:E.
  - apply (f_equal length) in E. rewrite ffill_length in E. simpl in E. lia.
  - rewrite shift1_cons. simpl. by destruct d.
Qed.

Lemma calculate_returns_explicit df close position :
  getitem df "Close" = Some close ->
  getitem df "Position" = Some position ->
  calculate_returns df
  = Returns
      (setitem "Strategy Return"
         (Floats (zip_with fmul (pct_change (to_floats close))
                                (to_floats position)))
         (setitem "Daily Return" (Floats (pct_change (to_floats close))) df)).
Proof.
  intros Hclose Hpos. unfold calculate_returns.
  rewrite (with_column_Some _ _ close) by done. cbv zeta.
  rewrite (with_column_Some _ _ _ _ (getitem_setitem_eq _ _ _)).
  by rewrite (with_column_Some _ _ position) by (by rewrite getitem_setitem_ne).
Qed.

(** The daily returns of closes that are all defined and not zero. *)
Lemma pct_change_shifted (previous : Q) (closes : list Q) :
  ~ (previous == 0)%Q -> Forall (fun c => ~ (c == 0)%Q) closes ->
  zip_with (fun a b => fsub (fdiv a b) (Some 1%Q))
    (Some <$> closes) (shift1 (Some previous) (Some <$> closes))
  = Some <$> ratios previous closes.
Proof.
  intros Hp Hall. revert previous Hp.
  induction Hall as [|c r Hc _ IH]; intros previous Hp; [done|].
  rewrite fmap_cons, shift1_cons. simpl. rewrite IH by done.
  destruct (Qeq_bool previous 0) eqn:E; [by apply Qeq_bool_iff in E | done].
Qed.

Lemma pct_change_ratios (first : Q) (rest : list Q) :
  Forall (fun c => ~ (c == 0)%Q) (first :: rest) ->
  pct_change (Some <$> (first :: rest)) = None :: (Some <$> ratios first rest).
Proof.
  intros Hall. inversion Hall as [|? ? Hfirst Hrest]; subst.
  unfold pct_change. rewrite ffill_defined, fmap_cons, shift1_cons. simpl.
  f_equal. by apply pct_change_shifted.
Qed.

Lemma ratios_length previous closes : length (ratios previous closes) = length closes.
Proof. revert previous. induction closes; intros; simpl; by rewrite ?IHcloses. Qed.

Lemma positive_nonzero (closes : list Q) :
  Forall (fun c => 0 < c)%Q closes -> Forall (fun c => ~ (c == 0)%Q) closes.
Proof.
  intros Hall. eapply Forall_impl; [exact Hall|].
  intros c Hc E. simpl in Hc. lra.
Qed.

(** On such closes the daily return is undefined at row 0 only. *)
Lemma pct_change_nan_at_first_row_only (closes : list Q) i :
  Forall (fun c => 0 < c)%Q closes -> (i < length closes)%nat ->
  pct_change (Some <$> closes) !! i = Some None <-> i = 0%nat.
Proof.
  intros Hgt Hi. destruct closes as [|first rest]; [simpl in Hi; lia|].
  rewrite pct_change_ratios by (by apply positive_nonzero).
  destruct i as [|i]; [done|]. simpl. rewrite list_lookup_fmap.
  split; [|done]. by destruct (ratios first rest !! i).
Qed.

(** A product with a defined position is undefined only where the daily
    return is. *)
Lemma strategy_defined_where_daily_is (daily : list float) (position : list Z) :
  length position = length daily ->
  let strategy :=
    zip_with fmul daily ((fun z => Some (inject_Z z)) <$> position) in
  (forall i, strategy !! i = Some None <-> daily !! i = Some None) /\
  length (dropna strategy) = length (dropna daily).
Proof.
  revert position. induction daily as [|d daily IH]; intros [|p position] Hlen;
    simpl in Hlen; try lia.
  - split; [done | done].
  - destruct (IH position) as [IHa IHb]; [lia|]. split.
    + intros [|i]; simpl; [|apply IHa].
      destruct d; simpl; split; intros [=]; done.
    + rewrite fmap_cons. simpl. destruct d; simpl; by rewrite IHb.
Qed.

(** X6.  On a table of positive closes, [calculate_returns] never raises
    on the table [calculate_signals] returns; the table it returns is well
    formed, its daily return is undefined at row 0 only, its strategy
    return is undefined exactly at the rows where the daily return is, and
    the two columns have the same number of defined values. *)
Theorem returns_follow_signals_without_error
    df short_window long_window (closes : list Q) :
  well_formed df ->
  getitem df "Close" = Some (Floats (Some <$> closes)) ->
  Forall (fun c => 0 < c)%Q closes ->
  exists df1 df2,
    calculate_signals df short_window long_window = Returns df1 /\
    calculate_returns df1 = Returns df2 /\
    well_formed df2 /\
    (forall i, (i < length closes)%nat ->
       floats_of df2 "Daily Return" !! i = Some None <-> i = 0%nat) /\
    (forall i, floats_of df2 "Strategy Return" !! i = Some None
               <-> floats_of df2 "Daily Return" !! i = Some None) /\
    length (dropna (floats_of df2 "Strategy Return"))
      = length (dropna (floats_of df2 "Daily Return")).
Proof.
  intros Hwf Hclose Hgt.
  destruct (sma_name_fresh short_window) as (Hs1 & _).
  destruct (sma_name_fresh long_window) as (Hl1 & _).
  destruct (signals_table_shape
              df short_window long_window _ Hwf Hclose)
    as (df1 & Hret1 & Hwf1 & _ & _ & _ & Hposlen).
  assert (Hpos : exists position,
            getitem df1 "Position" = Some (Ints position)).
  { rewrite (calculate_signals_explicit _ _ _ _ Hclose) in Hret1.
    injection Hret1 as <-. eexists. apply getitem_setitem_eq. }
  destruct Hpos as [position Hpos].
  assert (Hclose1 : getitem df1 "Close" = Some (Floats (Some <$> closes))).
  { rewrite (calculate_signals_explicit _ _ _ _ Hclose) in Hret1.
    injection Hret1 as <-. by rewrite !getitem_setitem_ne by done. }
  pose proof (calculate_returns_explicit df1 _ _ Hclose1 Hpos) as Hret2.
  destruct (calculate_returns_returns df1 _ _ Hclose1 Hpos)
    as (df2 & Hret2' & Hdaily & Hstrat).
  cbn [to_floats] in Hret2, Hdaily, Hstrat.
  exists df1, df2. split; [done|]. split; [done|].
  assert (Hlen : length (Some <$> closes) = length (index df1))
    by (apply (Hwf1 _ _ Hclose1)).
  assert (Hplen : length position = length (index df1))
    by (apply (Hwf1 _ _ Hpos)).
  split.
  { rewrite Hret2 in Hret2'. injection Hret2' as <-.
    repeat apply well_formed_setitem; try done; cbn [col_length].
    - by rewrite pct_change_length.
    - rewrite length_zip_with, pct_change_length, !length_fmap.
      rewrite length_fmap in Hlen. unfold setitem. cbn [index]. lia. }
  rewrite Hdaily, Hstrat.
  split; [intros i Hi; by apply pct_change_nan_at_first_row_only|].
  apply strategy_defined_where_daily_is.
  rewrite pct_change_length, length_fmap. rewrite length_fmap in Hlen. lia.
Qed.

(** ** Markers *)

Lemma selected_cons (b : bool) mask :
  selected (b :: mask) = ((if b then 1 else 0) + selected mask)%nat.
Proof. unfold selected. rewrite filter_cons. by destruct b. Qed.

Lemma transition_mask_cons (now before : Z) (previous : option Z) x r :
  zip_with andb (eq_scalar now (Some <$> (x :: r)))
                (eq_scalar before (shift1 previous (Some <$> (x :: r))))
  = (bool_decide (Some x = Some now) && bool_decide (previous = Some before))
    :: zip_with andb (eq_scalar now (Some <$> r))
                     (eq_scalar before (shift1 (Some x) (Some <$> r))).
Proof. reflexivity. Qed.

Lemma default_last_cons (x d : Z) r :
  default d (last (x :: r)) = default x (last r).
Proof. destruct r as [|y r]; [done|]. rewrite last_cons. by destruct (last (y :: r)). Qed.

(** Along a 0/1 signal, the 0-to-1 steps outnumber the 1-to-0 steps by the
    last value minus the value before the first. *)
Lemma transitions_balance (signal : list Z) :
  Forall (fun x => x = 0 \/ x = 1)%Z signal ->
  forall previous : Z, (previous = 0 \/ previous = 1)%Z ->
  (Z.of_nat (selected
     (zip_with andb (eq_scalar 1 (Some <$> signal))
        (eq_scalar 0 (shift1 (Some previous) (Some <$> signal)))))
   - Z.of_nat (selected
     (zip_with andb (eq_scalar 0 (Some <$> signal))
        (eq_scalar 1 (shift1 (Some previous) (Some <$> signal)))))
   = default previous (last signal) - previous)%Z.
Proof.
  induction 1 as [|x r Hx _ IH]; intros previous Hp.
  - simpl. lia.
  - rewrite !transition_mask_cons, !selected_cons, default_last_cons.
    specialize (IH x Hx).
    destruct Hx as [-> | ->], Hp as [-> | ->]; simpl in *; lia.
Qed.

Lemma buy_sell_balance (first : Z) (rest : list Z) :
  Forall (fun x => x = 0 \/ x = 1)%Z (first :: rest) ->
  (Z.of_nat (selected (buy_signals (first :: rest)))
   - Z.of_nat (selected (sell_signals (first :: rest)))
   = default first (last rest) - first)%Z.
Proof.
  intros Hbin. inversion Hbin as [|? ? Hfirst Hrest]; subst.
  unfold buy_signals, sell_signals.
  rewrite !transition_mask_cons, !selected_cons.
  rewrite !andb_false_r. simpl.
  by apply transitions_balance.
Qed.

Lemma boolean_index_length {A} (mask : list bool) (rows : list A) :
  length mask = length rows ->
  length (boolean_index mask rows) = selected mask.
Proof.
  revert rows. induction mask as [|m mask IH]; intros [|r rows] Hlen;
    simpl in Hlen; try lia; [done|].
  rewrite selected_cons. simpl. destruct m; simpl; rewrite IH by lia; lia.
Qed.

Lemma boolean_index_subseteq {A} (mask : list bool) (rows : list A) :
  boolean_index mask rows ⊆ rows.
Proof.
  revert rows. induction mask as [|m mask IH]; intros [|r rows]; simpl;
    try apply list_subseteq_nil.
  specialize (IH rows). destruct m.
  - intros y [->|Hy]%elem_of_cons; [by left | right; by apply IH].
  - intros y Hy. right. by apply IH.
Qed.

Lemma transition_mask_length now before (signal : list Z) :
  length (zip_with andb (eq_scalar now (Some <$> signal))
            (eq_scalar before (shift1 None (Some <$> signal))))
  = length signal.
Proof.
  unfold eq_scalar.
  rewrite length_zip_with, !length_fmap, shift1_length, length_fmap. lia.
Qed.

(** X7.  With [long_window >= 2], [plot_signals] succeeds on the table
    [calculate_signals] returns; the number of buy markers minus the number
    of sell markers is the last signal (0 or 1), so there are never more
    sells than buys and at most one more buy than sells; and every marker is
    a (date, close) row of the table. *)
Theorem buy_and_sell_markers_alternate df short_window long_window close :
  well_formed df ->
  getitem df "Close" = Some close ->
  (2 <= long_window)%nat ->
  exists df' fig,
    calculate_signals df short_window long_window = Returns df' /\
    plot_signals df' short_window long_window = Some fig /\
    (Z.of_nat (length (buy_markers fig)) - Z.of_nat (length (sell_markers fig))
     = default 0 (last (ints_of df' "Signal")))%Z /\
    (length (sell_markers fig) <= length (buy_markers fig)
       <= length (sell_markers fig) + 1)%nat /\
    buy_markers fig ⊆ zip (index df) (to_floats close) /\
    sell_markers fig ⊆ zip (index df) (to_floats close).
Proof.
  intros Hwf Hclose Hlw.
  destruct (sma_name_fresh short_window) as (Hs1 & Hs2 & Hs3 & _).
  destruct (sma_name_fresh long_window) as (Hl1 & Hl2 & Hl3 & _).
  assert (Hlen : length (to_floats close) = length (index df))
    by (rewrite to_floats_length; eauto).
  destruct (warm_up_rows_are_flat
              df short_window long_window close Hwf Hclose)
    as (df' & Hret & Hwarm & _).
  pose proof (calculate_signals_explicit df short_window long_window close Hclose)
    as Hexp. cbv zeta in Hexp.
  rewrite Hexp in Hret. injection Hret as Hdf'.
  set (sig := signal_column short_window long_window (to_floats close)
                (length (index df))) in *.
  assert (Hbin : Forall (fun x => x = 0 \/ x = 1)%Z sig)
    by apply signal_column_binary.
  assert (Hrows : length sig = length (index df))
    by by apply signal_column_rows.
  assert (Hsig : getitem df' "Signal" = Some (Ints sig)).
  { rewrite <- Hdf'. by rewrite getitem_setitem_ne, getitem_setitem_eq. }
  assert (Hclose' : getitem df' "Close" = Some close).
  { rewrite <- Hdf'. by rewrite !getitem_setitem_ne by done. }
  assert (Hlong : is_Some (getitem df' (sma_name long_window))).
  { rewrite <- Hdf'. rewrite !getitem_setitem_ne by done.
    rewrite getitem_setitem_eq. by eexists. }
  assert (Hshort : is_Some (getitem df' (sma_name short_window))).
  { rewrite <- Hdf'. rewrite !getitem_setitem_ne by done.
    destruct (decide (sma_name long_window = sma_name short_window)) as [E|Hne].
    - rewrite E, getitem_setitem_eq. by eexists.
    - rewrite getitem_setitem_ne, getitem_setitem_eq by done. by eexists. }
  destruct Hlong as [L HL], Hshort as [S HS].
  assert (Hidx : index df' = index df) by (by rewrite <- Hdf').
  exists df'. eexists. split; [by rewrite Hexp, Hdf'|].
  split; [unfold plot_signals; rewrite Hsig, Hclose', HS, HL; reflexivity|].
  cbn [buy_markers sell_markers to_ints]. unfold ints_of. rewrite Hsig, Hidx.
  cbn [from_option to_ints].
  assert (Hzip : length (zip (index df) (to_floats close)) = length sig).
  { rewrite length_zip_with. lia. }
  rewrite !boolean_index_length
    by (unfold buy_signals, sell_signals;
        rewrite transition_mask_length; lia).
  assert (Hbal : (Z.of_nat (selected (buy_signals sig))
                  - Z.of_nat (selected (sell_signals sig))
                  = default 0 (last sig))%Z).
  { destruct sig as [|first rest] eqn:Esig; [done|].
    rewrite buy_sell_balance by done.
    assert (first = 0%Z) as ->.
    { specialize (Hwarm 0%nat). destruct Hwarm as (_ & H0 & _);
        [lia | rewrite <- Hrows; simpl; lia |].
      unfold ints_of in H0. rewrite Hsig in H0. simpl in H0. by injection H0. }
    rewrite default_last_cons. lia. }
  split; [done|]. split.
  - assert (default 0 (last sig) = 0 \/ default 0 (last sig) = 1)%Z.
    { destruct (last sig) as [x|] eqn:El; [|by left].
      apply last_Some_elem_of in El. rewrite Forall_forall in Hbin.
      by apply Hbin. }
    lia.
  - split; apply boolean_index_subseteq.
Qed.


(** ** Growth curves *)

Lemma Qprod_cons x xs : Qprod (x :: xs) = (x * Qprod xs)%Q.
Proof. reflexivity. Qed.

Lemma plot_performance_explicit df daily strategy :
  getitem df "Daily Return" = Some daily ->
  getitem df "Strategy Return" = Some strategy ->
  plot_performance df
  = Returns
      (setitem "Strategy"
         (Floats (cumprod_skipna (fadd (Some 1%Q) <$> to_floats strategy)))
         (setitem "BuyHold"
            (Floats (cumprod_skipna (fadd (Some 1%Q) <$> to_floats daily))) df)).
Proof.
  intros Hd Hs. unfold plot_performance.
  rewrite (with_column_Some _ _ daily) by done. cbv zeta.
  by rewrite (with_column_Some _ _ strategy) by (by rewrite getitem_setitem_ne).
Qed.

Lemma cumprod_skipna_length (xs : list float) : length (cumprod_skipna xs) = length xs.
Proof.
  unfold cumprod_skipna, cumprod.
  rewrite length_zip_with, accumulate_length, length_fmap.
  apply Nat.min_id.
Qed.

(** The running product is undefined exactly where the column is. *)
Lemma cumprod_skipna_nan (xs : list float) (i : nat) :
  cumprod_skipna xs !! i = Some None <-> xs !! i = Some None.
Proof.
  unfold cumprod_skipna. rewrite lookup_zip_with.
  destruct (xs !! i) as [x|] eqn:Hx; simpl; [|done].
  destruct (lookup_lt_is_Some_2 (cumprod (default 1%Q <$> xs)) i) as [c ->].
  { unfold cumprod. rewrite accumulate_length, length_fmap.
    by eapply lookup_lt_Some. }
  simpl. by destruct x.
Qed.

Lemma fadd_one_nan (xs : list float) (i : nat) :
  (fadd (Some 1%Q) <$> xs) !! i = Some None <-> xs !! i = Some None.
Proof.
  rewrite list_lookup_fmap. destruct (xs !! i) as [[x|]|]; simpl; split;
    intros [=]; done.
Qed.

(** X8.  On a well-formed table of positive closes with a position column,
    [plot_performance] never raises after [calculate_returns]; it changes no
    column but [BuyHold] and [Strategy], leaves the table well formed, and
    both growth curves are undefined at row 0 and defined at every later
    row. *)
Theorem plot_performance_adds_two_growth_curves
    df (closes : list Q) (position : list Z) :
  well_formed df ->
  getitem df "Close" = Some (Floats (Some <$> closes)) ->
  getitem df "Position" = Some (Ints position) ->
  Forall (fun c => 0 < c)%Q closes ->
  exists df1 df2,
    calculate_returns df = Returns df1 /\
    plot_performance df1 = Returns df2 /\
    only_changes ["BuyHold"; "Strategy"] df1 df2 /\
    well_formed df2 /\
    forall i, (i < length closes)%nat ->
      (floats_of df2 "BuyHold" !! i = Some None <-> i = 0%nat) /\
      (floats_of df2 "Strategy" !! i = Some None <-> i = 0%nat).
Proof.
  intros Hwf Hclose Hpos Hgt.
  assert (Hlen : length closes = length (index df)).
  { pose proof (Hwf _ _ Hclose) as E. simpl in E. by rewrite length_fmap in E. }
  assert (Hplen : length position = length (index df))
    by apply (Hwf _ _ Hpos).
  pose proof (calculate_returns_explicit df _ _ Hclose Hpos) as Hret1.
  cbn [to_floats] in Hret1.
  set (daily := pct_change (Some <$> closes)) in *.
  set (strategy := zip_with fmul daily _) in *.
  set (df1 := setitem "Strategy Return" _ _) in Hret1.
  assert (Hdl : length daily = length (index df)).
  { unfold daily. by rewrite pct_change_length, length_fmap. }
  assert (Hsl : length strategy = length (index df)).
  { unfold strategy. rewrite length_zip_with, length_fmap. lia. }
  assert (Hwf1 : well_formed df1).
  { unfold df1. by repeat apply well_formed_setitem. }
  assert (Hd : getitem df1 "Daily Return" = Some (Floats daily)).
  { unfold df1. by rewrite getitem_setitem_ne, getitem_setitem_eq. }
  assert (Hs : getitem df1 "Strategy Return" = Some (Floats strategy))
    by apply getitem_setitem_eq.
  pose proof (plot_performance_explicit df1 _ _ Hd Hs) as Hret2.
  cbn [to_floats] in Hret2.
  eexists df1, _. split; [exact Hret1|]. split; [exact Hret2|].
  split; [repeat frame_step|]. split.
  { repeat apply well_formed_setitem; try done; cbn [col_length];
      by rewrite cumprod_skipna_length, length_fmap. }
  intros i Hi. unfold floats_of.
  rewrite getitem_setitem_eq, getitem_setitem_ne, getitem_setitem_eq by done.
  cbn [from_option to_floats].
  rewrite !cumprod_skipna_nan, !fadd_one_nan.
  assert (Hnan : daily !! i = Some None <-> i = 0%nat)
    by by apply pct_change_nan_at_first_row_only.
  split; [done|]. rewrite <- Hnan.
  apply (strategy_defined_where_daily_is daily position). lia.
Qed.

(** ** Drawdown and wealth *)

Lemma wealth_positive rs :
  Forall (fun r => -1 < r)%Q rs ->
  forall i, (i < length rs)%nat -> (0 < wealth rs i)%Q.
Proof.
  intros Hall. induction i as [|i IH]; intros Hi.
  - destruct rs as [|r rest]; [simpl in Hi; lia|].
    inversion Hall; subst. rewrite wealth_0. lra.
  - destruct (lookup_lt_is_Some_2 rs (S i) Hi) as [r Hr].
    rewrite (wealth_S rs i r Hr).
    rewrite Forall_lookup in Hall. specialize (Hall _ _ Hr). simpl in Hall.
    apply Qmult_lt_0_compat; [apply IH; lia | lra].
Qed.

(** The minimum of the drawdown series is one of the drawdowns and is below
    all of them. *)
Lemma max_drawdown_attained rs :
  (0 < wealth rs 0)%Q -> (1 <= length rs)%nat ->
  exists m, fmin (drawdown_series rs) = Some m /\
    (forall i, (i < length rs)%nat -> m <= drawdown_at rs i)%Q /\
    (exists i, (i < length rs)%nat /\ (m == drawdown_at rs i)%Q).
Proof.
  intros Hpos Hlen.
  destruct (drawdown_series_lookup rs 0 Hpos) as (d0 & Hd0 & _); [lia|].
  destruct (fmin_spec (drawdown_series rs) d0) as (m & Hm & Hlow & Hhit);
    [by eapply list_elem_of_lookup_2|].
  exists m. split; [done|]. split.
  - intros i Hi.
    destruct (drawdown_series_lookup rs i Hpos Hi) as (d & Hd & Ed).
    rewrite <- Ed. apply Hlow. by eapply list_elem_of_lookup_2.
  - destruct Hhit as (d & Hd & Ed).
    apply list_elem_of_lookup_1 in Hd as (i & Hi).
    apply lookup_lt_Some in Hi as Hlt.
    rewrite drawdown_series_length in Hlt.
    destruct (drawdown_series_lookup rs i Hpos Hlt) as (d' & Hd' & Ed').
    exists i. split; [done|]. rewrite Ed.
    assert (Some d = Some d') as [= ->]
      by (apply (inj Some); etrans; [symmetry; exact Hi | exact Hd']).
    done.
Qed.

Lemma Qprod_ones (xs : list Q) :
  Forall (fun x => x == 0)%Q xs -> (Qprod (Qplus 1 <$> xs) == 1)%Q.
Proof.
  induction 1 as [|x r Hx _ IH]; [reflexivity|].
  rewrite fmap_cons, Qprod_cons, IH, Hx. ring.
Qed.

Lemma Qsum_zeros (xs : list Q) :
  Forall (fun x => x == 0)%Q xs -> (Qsum xs == 0)%Q.
Proof.
  induction 1 as [|x r Hx _ IH]; [reflexivity|].
  unfold Qsum in *. simpl. rewrite IH, Hx. ring.
Qed.

Section ReportProperties.

Variable Qpow : Q -> Q -> Q.
Variable Qsqrt : Q -> Q.

(** X10.  When every defined return is above -1 (and there are at least
    two), the reported max drawdown is at least -1 and at most 0: no
    drawdown is worse than the loss of the whole peak. *)
Theorem max_drawdown_between_minus_one_and_zero returns name :
  (2 <= length (dropna returns))%nat ->
  Forall (fun r => -1 < r)%Q (dropna returns) ->
  exists values m,
    get_performance_report Qpow Qsqrt returns name = Statistics name values /\
    max_drawdown values = Some m /\
    (-1 <= m)%Q /\ (m <= 0)%Q.
Proof.
  intros Hn Hall.
  destruct (report_numeric Qpow Qsqrt returns name Hn)
    as (values & Hrep & _ & _ & _ & _ & Hmdd).
  set (rs := dropna returns) in *.
  assert (Hpos : forall i, (i < length rs)%nat -> (0 < wealth rs i)%Q)
    by by apply wealth_positive.
  destruct (max_drawdown_attained rs) as (m & Hm & Hlow & i & Hi & Em);
    [apply Hpos; lia | lia |].
  exists values, m. split; [done|]. split; [by rewrite Hmdd|].
  pose proof (first_le_peak rs i) as Hfirst.
  pose proof (Hpos 0%nat ltac:(lia)) as H0.
  pose proof (Hpos i Hi) as Hw.
  split.
  - rewrite Em. unfold drawdown_at.
    apply Qle_shift_div_l; lra.
  - rewrite Em. apply drawdown_nonpositive. apply Hpos. lia.
Qed.

(** X11.  When every defined return is zero (and there are at least two),
    the cumulative return and the max drawdown are zero, the annualized
    return is zero for up to 252 observations, and, for a square root that
    respects equality and maps 0 to 0, the volatility is zero and the Sharpe
    ratio is 0 rather than undefined. *)
Theorem flat_returns_give_zero_statistics returns name :
  (2 <= length (dropna returns))%nat ->
  Forall (fun r => r == 0)%Q (dropna returns) ->
  exists values m,
    get_performance_report Qpow Qsqrt returns name = Statistics name values /\
    (cumulative_return values == 0)%Q /\
    ((length (dropna returns) <= 252)%nat ->
       (annualized_return values == 0)%Q) /\
    max_drawdown values = Some m /\ (m == 0)%Q /\
    (Proper (Qeq ==> Qeq) Qsqrt -> (Qsqrt 0 == 0)%Q ->
       (annualized_volatility values == 0)%Q /\
       sharpe_ratio values = Some 0%Q).
Proof.
  intros Hn Hzero.
  destruct (report_numeric Qpow Qsqrt returns name Hn)
    as (values & Hrep & Hcum & Hann & Hvol & Hsharpe & Hmdd).
  set (rs := dropna returns) in *.
  assert (Hone : forall i, (wealth rs i == 1)%Q).
  { intros i. unfold wealth. apply Qprod_ones. by apply Forall_take. }
  destruct (max_drawdown_attained rs) as (m & Hm & _ & i & Hi & Em);
    [rewrite Hone; lra | lia |].
  assert (Ecum : (cumulative_return values == 0)%Q).
  { rewrite Hcum, Qprod_ones by done. ring. }
  exists values, m. split; [done|]. split; [done|]. split.
  { intros Hle. rewrite Hann, bool_decide_eq_false_2 by lia. done. }
  split; [by rewrite Hmdd|]. split.
  { rewrite Em. unfold drawdown_at.
    rewrite (peak_of_rising_curve rs i)
      by (intros k _; rewrite !Hone; apply Qle_refl).
    rewrite Hone. reflexivity. }
  intros Hproper Hsqrt0.
  assert (Evol : (annualized_volatility values == 0)%Q).
  { rewrite Hvol. unfold std.
    assert (Qsum ((fun x => (x - Qsum rs / Qnat (length rs))
                            * (x - Qsum rs / Qnat (length rs)))%Q <$> rs)
            == 0)%Q as Esq.
    { apply Qsum_zeros. apply Forall_fmap.
      eapply Forall_impl; [exact Hzero|]. intros x Hx. simpl in *.
      rewrite Hx, (Qsum_zeros rs Hzero).
      unfold Qdiv. ring. }
    rewrite Esq.
    assert (0 / Qnat (length rs - 1) == 0)%Q as -> by (unfold Qdiv; ring).
    rewrite Hsqrt0. ring. }
  split; [done|].
  rewrite Hsharpe.
  destruct (Qeq_bool (annualized_volatility values) 0) eqn:E; [done|].
  by apply Qeq_bool_neq in E.
Qed.

End ReportProperties.

(** ** The whole run *)

Lemma dropna_pct_change_le xs :
  (length (dropna (pct_change xs)) <= length xs - 1)%nat.
Proof.
  pose proof (pct_change_length xs) as Hlen.
  destruct xs as [|x r]; [by destruct (pct_change []) |].
  pose proof (pct_change_head (x :: r)) as Hhead.
  destruct (pct_change (x :: r)) as [|d ds]; [simpl in Hlen; lia|].
  specialize (Hhead ltac:(simpl; lia)). injection Hhead as ->.
  simpl in *. pose proof (dropna_length_le ds). lia.
Qed.

Section RunProperties.

Variable Qpow : Q -> Q -> Q.
Variable Qsqrt : Q -> Q.

Lemma report_kind returns name :
  (exists text, get_performance_report Qpow Qsqrt returns name
                = NotEnoughData text) /\ (length (dropna returns) < 2)%nat
  \/ (exists values, get_performance_report Qpow Qsqrt returns name
                     = Statistics name values) /\
     (2 <= length (dropna returns))%nat.
Proof.
  destruct (decide (length (dropna returns) < 2)%nat) as [Hlt|Hge].
  - left. split; [|done]. eexists. unfold get_performance_report.
    by rewrite bool_decide_eq_true_2 by done.
  - right. split; [|lia].
    destruct (report_numeric Qpow Qsqrt returns name) as (values & Hrep & _);
      [lia|]. by exists values.
Qed.

Lemma run_backtest_explicit downloaded ticker start_date end_date
    short_window long_window close :
  well_formed downloaded ->
  index downloaded <> [] ->
  getitem downloaded "Close" = Some close ->
  exists df1 df2 df3 fig position,
    calculate_signals downloaded short_window long_window = Returns df1 /\
    getitem df1 "Position" = Some (Ints position) /\
    length position = length (index downloaded) /\
    calculate_returns df1 = Returns df2 /\
    floats_of df2 "Daily Return" = pct_change (to_floats close) /\
    floats_of df2 "Strategy Return"
      = zip_with fmul (pct_change (to_floats close))
                      ((fun z => Some (inject_Z z)) <$> position) /\
    plot_signals df2 short_window long_window = Some fig /\
    plot_performance df2 = Returns df3 /\
    run_backtest Qpow Qsqrt downloaded ticker start_date end_date
      short_window long_window
    = Finished
        [Print ("Running backtest for " +:+ ticker +:+ " from "
                +:+ start_date +:+ " to " +:+ end_date);
         ShowSignals fig;
         ShowPerformance (floats_of df3 "BuyHold") (floats_of df3 "Strategy");
         PrintReport (get_performance_report Qpow Qsqrt
                        (floats_of df2 "Daily Return") "Buy & Hold");
         PrintReport (get_performance_report Qpow Qsqrt
                        (floats_of df2 "Strategy Return") "SMA Strategy")].
Proof.
  intros Hwf Hidx Hclose.
  destruct (sma_name_fresh short_window) as (Hs1 & Hs2 & Hs3 & Hs4 & Hs5).
  destruct (sma_name_fresh long_window) as (Hl1 & Hl2 & Hl3 & Hl4 & Hl5).
  assert (Hlen : length (to_floats close) = length (index downloaded))
    by (rewrite to_floats_length; eauto).
  pose proof (calculate_signals_explicit downloaded short_window long_window
                close Hclose) as Hret1. cbv zeta in Hret1.
  set (sig := signal_column _ _ _ _) in Hret1.
  set (df1 := setitem "Position" _ _) in Hret1.
  assert (Hpos1 : getitem df1 "Position" = Some (Ints (replace_ffill 0 sig)))
    by apply getitem_setitem_eq.
  assert (Hclose1 : getitem df1 "Close" = Some close).
  { unfold df1. by rewrite !getitem_setitem_ne by done. }
  assert (Hsig1 : getitem df1 "Signal" = Some (Ints sig)).
  { unfold df1. by rewrite getitem_setitem_ne, getitem_setitem_eq. }
  assert (Hlong1 : is_Some (getitem df1 (sma_name long_window))).
  { unfold df1. rewrite !getitem_setitem_ne by done.
    rewrite getitem_setitem_eq. by eexists. }
  assert (Hshort1 : is_Some (getitem df1 (sma_name short_window))).
  { unfold df1. rewrite !getitem_setitem_ne by done.
    destruct (decide (sma_name long_window = sma_name short_window)) as [E|Hne].
    - rewrite E, getitem_setitem_eq. by eexists.
    - rewrite getitem_setitem_ne, getitem_setitem_eq by done. by eexists. }
  destruct Hlong1 as [L HL], Hshort1 as [S HS].
  pose proof (calculate_returns_explicit df1 close _ Hclose1 Hpos1) as Hret2.
  set (df2 := setitem "Strategy Return" _ _) in Hret2.
  assert (Hdaily2 : getitem df2 "Daily Return"
                    = Some (Floats (pct_change (to_floats close)))).
  { unfold df2. by rewrite getitem_setitem_ne, getitem_setitem_eq. }
  assert (Hstrat2 : getitem df2 "Strategy Return"
                    = Some (Floats (zip_with fmul (pct_change (to_floats close))
                                      (to_floats (Ints (replace_ffill 0 sig))))))
    by apply getitem_setitem_eq.
  assert (Hfig : plot_signals df2 short_window long_window
                 = Some {| buy_markers :=
                             boolean_index (buy_signals sig)
                               (zip (index df2) (to_floats close));
                           sell_markers :=
                             boolean_index (sell_signals sig)
                               (zip (index df2) (to_floats close)) |}).
  { unfold plot_signals, df2.
    rewrite !(getitem_setitem_ne "Strategy Return"),
      !(getitem_setitem_ne "Daily Return") by done.
    by rewrite Hsig1, Hclose1, HS, HL. }
  pose proof (plot_performance_explicit df2 _ _ Hdaily2 Hstrat2) as Hret3.
  set (df3 := setitem "Strategy" _ _) in Hret3.
  exists df1, df2, df3. eexists. exists (replace_ffill 0 sig).
  split; [done|]. split; [done|].
  split; [rewrite replace_ffill_length; by apply signal_column_rows|].
  split; [done|].
  split; [unfold floats_of; by rewrite Hdaily2|].
  split; [unfold floats_of; by rewrite Hstrat2|].
  split; [exact Hfig|]. split; [done|].
  unfold run_backtest, get_data, empty.
  rewrite bool_decide_eq_false_2.
  2:{ intros [E|E]; [done|]. unfold getitem in Hclose. rewrite E in Hclose.
      by rewrite lookup_empty in Hclose. }
  rewrite Hret1, Hret2, Hfig, Hret3.
  assert (Hdaily3 : getitem df3 "Daily Return"
                    = Some (Floats (pct_change (to_floats close)))).
  { unfold df3. by rewrite !getitem_setitem_ne by done. }
  assert (Hstrat3 : getitem df3 "Strategy Return" = getitem df2 "Strategy Return").
  { unfold df3. by rewrite !getitem_setitem_ne by done. }
  rewrite Hdaily3, Hstrat3, Hstrat2.
  unfold floats_of. rewrite Hdaily2, Hstrat2. reflexivity.
Qed.

(** On positive closes both printed reports see one defined return per row
    after the first. *)
Lemma run_backtest_on_positive_closes downloaded ticker start_date end_date
    short_window long_window (closes : list Q) :
  well_formed downloaded ->
  index downloaded <> [] ->
  getitem downloaded "Close" = Some (Floats (Some <$> closes)) ->
  Forall (fun c => 0 < c)%Q closes ->
  exists fig buy_hold strategy daily_return strategy_return,
    run_backtest Qpow Qsqrt downloaded ticker start_date end_date
      short_window long_window
    = Finished
        [Print ("Running backtest for " +:+ ticker +:+ " from "
                +:+ start_date +:+ " to " +:+ end_date);
         ShowSignals fig; ShowPerformance buy_hold strategy;
         PrintReport (get_performance_report Qpow Qsqrt
                        daily_return "Buy & Hold");
         PrintReport (get_performance_report Qpow Qsqrt
                        strategy_return "SMA Strategy")] /\
    length (dropna daily_return) = (length closes - 1)%nat /\
    length (dropna strategy_return) = (length closes - 1)%nat.
Proof.
  intros Hwf Hidx Hclose Hgt.
  destruct (run_backtest_explicit downloaded ticker start_date end_date
              short_window long_window _ Hwf Hidx Hclose)
    as (df1 & df2 & df3 & fig & position & _ & _ & Hplen & _ & Hdaily
        & Hstrat & _ & _ & Hrun).
  cbn [to_floats] in Hdaily, Hstrat.
  assert (Hlen : length closes = length (index downloaded)).
  { pose proof (Hwf _ _ Hclose) as E. simpl in E. by rewrite length_fmap in E. }
  assert (Hsame : length (dropna (floats_of df2 "Strategy Return"))
                  = length (dropna (floats_of df2 "Daily Return"))).
  { rewrite Hdaily, Hstrat. apply strategy_defined_where_daily_is.
    rewrite pct_change_length, length_fmap. lia. }
  assert (Hcount : length (dropna (floats_of df2 "Daily Return"))
                   = (length closes - 1)%nat).
  { rewrite Hdaily. destruct closes as [|first rest]; [done|].
    rewrite pct_change_ratios by (by apply positive_nonzero).
    simpl. rewrite dropna_defined, ratios_length. lia. }
  eexists _, _, _, _, _. split; [exact Hrun|]. split; [done | lia].
Qed.

(** X12.  [run_backtest] on an empty download prints only the message
    that no data could be downloaded.  On a non-empty, well-formed table
    with a [Close] column it never raises: it prints the header, shows the
    two figures and prints two reports.  When the closes are positive the
    two reports are both placeholders or both numeric. *)
Theorem run_backtest_finishes_with_two_reports_of_one_kind
    downloaded ticker start_date end_date short_window long_window :
  (index downloaded = [] \/ columns downloaded = ∅ ->
     run_backtest Qpow Qsqrt downloaded ticker start_date end_date
       short_window long_window
     = Finished [Print ("Could not download data for " +:+ ticker +:+ ".")]) /\
  (forall close,
     well_formed downloaded ->
     index downloaded <> [] ->
     getitem downloaded "Close" = Some close ->
     exists fig buy_hold strategy report_buy_hold report_strategy,
       run_backtest Qpow Qsqrt downloaded ticker start_date end_date
         short_window long_window
       = Finished
           [Print ("Running backtest for " +:+ ticker +:+ " from "
                   +:+ start_date +:+ " to " +:+ end_date);
            ShowSignals fig; ShowPerformance buy_hold strategy;
            PrintReport report_buy_hold; PrintReport report_strategy]) /\
  (forall closes : list Q,
     well_formed downloaded ->
     index downloaded <> [] ->
     getitem downloaded "Close" = Some (Floats (Some <$> closes)) ->
     Forall (fun c => 0 < c)%Q closes ->
     exists fig buy_hold strategy report_buy_hold report_strategy,
       run_backtest Qpow Qsqrt downloaded ticker start_date end_date
         short_window long_window
       = Finished
           [Print ("Running backtest for " +:+ ticker +:+ " from "
                   +:+ start_date +:+ " to " +:+ end_date);
            ShowSignals fig; ShowPerformance buy_hold strategy;
            PrintReport report_buy_hold; PrintReport report_strategy] /\
       ((exists t1 t2, report_buy_hold = NotEnoughData t1 /\
                       report_strategy = NotEnoughData t2) \/
        (exists v1 v2, report_buy_hold = Statistics "Buy & Hold" v1 /\
                       report_strategy = Statistics "SMA Strategy" v2))).
Proof.
  split; [|split].
  - intros Hempty. unfold run_backtest, get_data, empty.
    by rewrite bool_decide_eq_true_2 by done.
  - intros close Hwf Hidx Hclose.
    destruct (run_backtest_explicit downloaded ticker start_date end_date
                short_window long_window close Hwf Hidx Hclose)
      as (df1 & df2 & df3 & fig & position & _ & _ & _ & _ & _ & _ & _ & _
          & Hrun).
    eexists _, _, _, _, _. exact Hrun.
  - intros closes Hwf Hidx Hclose Hgt.
    destruct (run_backtest_on_positive_closes downloaded ticker start_date
                end_date short_window long_window closes Hwf Hidx Hclose Hgt)
      as (fig & bh & st & daily & strat & Hrun & Hd & Hs).
    eexists _, _, _, _, _. split; [exact Hrun|].
    destruct (report_kind daily "Buy & Hold")
      as [[[t1 E1] H1]|[[v1 E1] H1]];
    destruct (report_kind strat "SMA Strategy")
      as [[[t2 E2] H2]|[[v2 E2] H2]]; try lia.
    + left. by exists t1, t2.
    + right. by exists v1, v2.
Qed.

(** X9.  On a well-formed table of at least three positive closes,
    [run_backtest] prints a numeric report for both buy-and-hold and the
    strategy. *)
Theorem three_positive_closes_give_two_numeric_reports
    downloaded ticker start_date end_date short_window long_window
    (closes : list Q) :
  well_formed downloaded ->
  getitem downloaded "Close" = Some (Floats (Some <$> closes)) ->
  Forall (fun c => 0 < c)%Q closes ->
  (3 <= length closes)%nat ->
  exists fig buy_hold strategy v1 v2,
    run_backtest Qpow Qsqrt downloaded ticker start_date end_date
      short_window long_window
    = Finished
        [Print ("Running backtest for " +:+ ticker +:+ " from "
                +:+ start_date +:+ " to " +:+ end_date);
         ShowSignals fig; ShowPerformance buy_hold strategy;
         PrintReport (Statistics "Buy & Hold" v1);
         PrintReport (Statistics "SMA Strategy" v2)].
Proof.
  intros Hwf Hclose Hgt Hrows.
  assert (Hidx : index downloaded <> []).
  { pose proof (Hwf _ _ Hclose) as E. simpl in E. rewrite length_fmap in E.
    intros E0. rewrite E0 in E. simpl in E. lia. }
  destruct (run_backtest_on_positive_closes downloaded ticker start_date
              end_date short_window long_window closes Hwf Hidx Hclose Hgt)
    as (fig & bh & st & daily & strat & Hrun & Hd & Hs).
  destruct (report_kind daily "Buy & Hold") as [[_ H1]|[[v1 E1] _]]; [lia|].
  destruct (report_kind strat "SMA Strategy") as [[_ H2]|[[v2 E2] _]]; [lia|].
  rewrite E1, E2 in Hrun. by eexists _, _, _, v1, v2.
Qed.

(** X14.  On a table of one or two rows, [run_backtest] prints the
    placeholder for both the buy-and-hold and the strategy report. *)
Theorem short_table_gives_two_placeholders
    downloaded ticker start_date end_date short_window long_window close :
  well_formed downloaded ->
  index downloaded <> [] ->
  getitem downloaded "Close" = Some close ->
  (length (index downloaded) <= 2)%nat ->
  exists fig buy_hold strategy t1 t2,
    run_backtest Qpow Qsqrt downloaded ticker start_date end_date
      short_window long_window
    = Finished
        [Print ("Running backtest for " +:+ ticker +:+ " from "
                +:+ start_date +:+ " to " +:+ end_date);
         ShowSignals fig; ShowPerformance buy_hold strategy;
         PrintReport (NotEnoughData t1); PrintReport (NotEnoughData t2)].
Proof.
  intros Hwf Hidx Hclose Hrows.
  destruct (run_backtest_explicit downloaded ticker start_date end_date
              short_window long_window close Hwf Hidx Hclose)
    as (df1 & df2 & df3 & fig & position & _ & _ & Hplen & _ & Hdaily
        & Hstrat & _ & _ & Hrun).
  assert (Hlen : length (to_floats close) = length (index downloaded))
    by (rewrite to_floats_length; eauto).
  assert (Hfew : (length (dropna (floats_of df2 "Daily Return")) < 2)%nat).
  { rewrite Hdaily. pose proof (dropna_pct_change_le (to_floats close)). lia. }
  assert (Hsame : length (dropna (floats_of df2 "Strategy Return"))
                  = length (dropna (floats_of df2 "Daily Return"))).
  { rewrite Hdaily, Hstrat. apply strategy_defined_where_daily_is.
    rewrite pct_change_length. lia. }
  destruct (report_kind (floats_of df2 "Daily Return") "Buy & Hold")
    as [[[t1 E1] _]|[_ H1]]; [|lia].
  destruct (report_kind (floats_of df2 "Strategy Return") "SMA Strategy")
    as [[[t2 E2] _]|[_ H2]]; [|lia].
  rewrite E1, E2 in Hrun. by eexists _, _, _, t1, t2.
Qed.

End RunProperties.

(** ** get_metric *)

(** X13.  [get_metric] returns the value of the first of [keys] that is a
    row of [metrics], without a warning, whatever later keys hold; it
    returns the default, with the warning, when none is; and a result
    without warning is always the value of one of the keys. *)
Theorem get_metric_takes_first_key_present
    {V : Type} (metrics : gmap string V) (keys : list string) (default : V) :
  (forall before key after v,
     keys = before ++ key :: after ->
     Forall (fun k => metrics !! k = None) before ->
     metrics !! key = Some v ->
     get_metric metrics keys default = (v, false)) /\
  (Forall (fun k => metrics !! k = None) keys ->
     get_metric metrics keys default = (default, true)) /\
  (forall v, get_metric metrics keys default = (v, false) ->
     exists key, key ∈ keys /\ metrics !! key = Some v).
Proof.
  repeat split.
  - intros before key after v -> Hbefore Hkey.
    induction Hbefore as [|k before Hk _ IH]; simpl.
    + by rewrite Hkey.
    + by rewrite Hk.
  - induction 1 as [|k keys' Hk _ IH]; simpl; [done | by rewrite Hk].
  - induction keys as [|k keys' IH]; simpl; [done|].
    intros v. destruct (metrics !! k) as [x|] eqn:Hk.
    + intros [= ->]. exists k. split; [by left | done].
    + intros Hv. destruct (IH v Hv) as (key & Hin & Hkey).
      exists key. split; [by right | done].
Qed.

(** ** Moving averages *)

(** X15.  On closes that are all defined and with positive windows, each
    moving-average column is undefined at the rows before its window is
    full (row [i] with [i + 1 < w]) and defined at every row from [w - 1]
    on. *)
Theorem moving_averages_defined_once_window_is_full
    df short_window long_window (closes : list Q) :
  getitem df "Close" = Some (Floats (Some <$> closes)) ->
  (0 < short_window)%nat -> (0 < long_window)%nat ->
  exists df',
    calculate_signals df short_window long_window = Returns df' /\
    forall w i, w = short_window \/ w = long_window ->
      (i < length closes)%nat ->
      ((S i < w)%nat -> floats_of df' (sma_name w) !! i = Some None) /\
      ((w <= S i)%nat ->
         exists mean, floats_of df' (sma_name w) !! i = Some (Some mean)).
Proof.
  intros Hclose Hs Hl.
  destruct (calculate_signals_returns df short_window long_window _ Hclose)
    as (df' & Hret & _ & Hshort & Hlong & _).
  exists df'. split; [done|].
  cbn [to_floats] in Hshort, Hlong.
  intros w i [-> | ->] Hi; [rewrite Hshort | rewrite Hlong];
    rewrite rolling_mean_defined by done;
    (split; intros Hw;
     [by rewrite bool_decide_eq_false_2 by lia
     | rewrite bool_decide_eq_true_2 by lia; by eexists]).
Qed.

(** ** Instances *)

Lemma calculate_signals_keeps_table_well_formed_witness :
  well_formed up_then_down /\
  exists df',
    calculate_signals up_then_down 1 2 = Returns df' /\ well_formed df'.
Proof.
  assert (Hwf_table : well_formed up_then_down)
    by (apply (bool_decide_unpack _); by vm_compute).
  assert (Hclose_table : getitem up_then_down "Close" = Some (Floats [Some 1%Q; Some 2%Q; Some 1%Q]))
    by reflexivity.
  split; [exact Hwf_table|].
  destruct (calculate_signals_keeps_table_well_formed up_then_down 1 2 _
              Hwf_table Hclose_table)
    as (df' & Hret & Hwf & _).
  exists df'. by split.
Defined.

Lemma position_is_long_from_first_long_signal_witness :
  well_formed up_then_down /\
  exists df',
    calculate_signals up_then_down 1 2 = Returns df' /\
    (ints_of df' "Position" !! 2%nat = Some 1%Z
     <-> exists j, (j <= 2)%nat /\ ints_of df' "Signal" !! j = Some 1%Z).
Proof.
  assert (Hwf_table : well_formed up_then_down)
    by (apply (bool_decide_unpack _); by vm_compute).
  assert (Hclose_table : getitem up_then_down "Close" = Some (Floats [Some 1%Q; Some 2%Q; Some 1%Q]))
    by reflexivity.
  split; [exact Hwf_table|].
  destruct (position_is_long_from_first_long_signal up_then_down 1 2 _
              Hwf_table Hclose_table)
    as (df' & Hret & _ & _ & Hiff).
  exists df'. split; [exact Hret|]. apply Hiff. simpl. lia.
Defined.

Lemma no_position_before_long_window_fills_witness :
  well_formed up_then_down /\
  exists df',
    calculate_signals up_then_down 1 2 = Returns df' /\
    ints_of df' "Position" !! 0%nat = Some 0%Z.
Proof.
  assert (Hwf_table : well_formed up_then_down)
    by (apply (bool_decide_unpack _); by vm_compute).
  assert (Hclose_table : getitem up_then_down "Close" = Some (Floats [Some 1%Q; Some 2%Q; Some 1%Q]))
    by reflexivity.
  split; [exact Hwf_table|].
  destruct (no_position_before_long_window_fills up_then_down 1 2 _
              Hwf_table Hclose_table)
    as (df' & Hret & Hwarm & _).
  exists df'. split; [exact Hret|].
  apply (Hwarm 0%nat); simpl; lia.
Defined.

Lemma missing_column_raises_key_error_witness :
  getitem no_columns "Close" = None /\
  calculate_signals no_columns 20 50 = KeyError "Close" no_columns /\
  getitem up_then_down "Position" = None /\
  exists df', calculate_returns up_then_down = KeyError "Position" df' /\
              only_changes ["Daily Return"] up_then_down df'.
Proof.
  assert (Hclose_table : getitem up_then_down "Close" = Some (Floats [Some 1%Q; Some 2%Q; Some 1%Q]))
    by reflexivity.
  assert (Hnone : getitem no_columns "Close" = None) by reflexivity.
  assert (Hpos : getitem up_then_down "Position" = None) by reflexivity.
  split; [exact Hnone|].
  split; [apply (proj1 (missing_column_raises_key_error no_columns 20 50) Hnone)|].
  split; [exact Hpos|].
  destruct (proj2 (missing_column_raises_key_error up_then_down 20 50) _
              Hclose_table Hpos) as (df' & Hret & _ & _ & Hframe).
  exists df'. by split.
Defined.

Lemma calculate_signals_is_idempotent_witness :
  exists df',
    calculate_signals up_then_down 1 2 = Returns df' /\
    calculate_signals df' 1 2 = Returns df'.
Proof.
  assert (Hclose_table : getitem up_then_down "Close" = Some (Floats [Some 1%Q; Some 2%Q; Some 1%Q]))
    by reflexivity.
  apply (calculate_signals_is_idempotent up_then_down 1 2 _ Hclose_table).
Defined.

Lemma returns_follow_signals_without_error_witness :
  well_formed up_then_down /\
  Forall (fun c => 0 < c)%Q [1; 2; 1]%Q /\
  exists df1 df2,
    calculate_signals up_then_down 1 2 = Returns df1 /\
    calculate_returns df1 = Returns df2 /\
    length (dropna (floats_of df2 "Strategy Return"))
      = length (dropna (floats_of df2 "Daily Return")).
Proof.
  assert (Hwf_table : well_formed up_then_down)
    by (apply (bool_decide_unpack _); by vm_compute).
  assert (Hclose_table : getitem up_then_down "Close"
                         = Some (Floats (Some <$> [1; 2; 1]%Q)))
    by reflexivity.
  assert (Hpositive : Forall (fun c => 0 < c)%Q [1; 2; 1]%Q)
    by (by repeat constructor).
  split; [exact Hwf_table|]. split; [exact Hpositive|].
  destruct (returns_follow_signals_without_error up_then_down 1 2 _
              Hwf_table Hclose_table Hpositive)
    as (df1 & df2 & H1 & H2 & _ & _ & _ & Hsame).
  exists df1, df2. by repeat split.
Defined.

Lemma buy_and_sell_markers_alternate_witness :
  well_formed up_then_down /\ (2 <= 2)%nat /\
  exists df' fig,
    calculate_signals up_then_down 1 2 = Returns df' /\
    plot_signals df' 1 2 = Some fig /\
    (length (sell_markers fig) <= length (buy_markers fig)
       <= length (sell_markers fig) + 1)%nat.
Proof.
  assert (Hwf_table : well_formed up_then_down)
    by (apply (bool_decide_unpack _); by vm_compute).
  assert (Hclose_table : getitem up_then_down "Close" = Some (Floats [Some 1%Q; Some 2%Q; Some 1%Q]))
    by reflexivity.
  assert (Hw : (2 <= 2)%nat) by lia.
  split; [exact Hwf_table|]. split; [exact Hw|].
  destruct (buy_and_sell_markers_alternate up_then_down 1 2 _
              Hwf_table Hclose_table Hw)
    as (df' & fig & Hret & Hfig & _ & Hcount & _).
  exists df', fig. split; [exact Hret|]. split; [exact Hfig | exact Hcount].
Defined.

Lemma plot_performance_adds_two_growth_curves_witness :
  well_formed after_signals /\
  Forall (fun c => 0 < c)%Q [1; 2; 1]%Q /\
  exists df1 df2,
    calculate_returns after_signals = Returns df1 /\
    plot_performance df1 = Returns df2 /\
    (floats_of df2 "BuyHold" !! 0%nat = Some None <-> 0%nat = 0%nat).
Proof.
  assert (Hwf_after : well_formed after_signals)
    by (apply (bool_decide_unpack _); by vm_compute).
  assert (Hclose_after : getitem after_signals "Close"
                         = Some (Floats (Some <$> [1; 2; 1]%Q)))
    by reflexivity.
  assert (Hposition_after : getitem after_signals "Position"
                            = Some (Ints [0; 1; 1]%Z))
    by reflexivity.
  assert (Hpositive : Forall (fun c => 0 < c)%Q [1; 2; 1]%Q)
    by (by repeat constructor).
  split; [exact Hwf_after|]. split; [exact Hpositive|].
  destruct (plot_performance_adds_two_growth_curves after_signals
              [1; 2; 1]%Q [0; 1; 1]%Z Hwf_after Hclose_after
              Hposition_after Hpositive)
    as (df1 & df2 & H1 & H2 & _ & _ & Hnan).
  exists df1, df2. split; [exact H1|]. split; [exact H2|].
  apply (Hnan 0%nat). simpl. lia.
Defined.

Lemma three_positive_closes_give_two_numeric_reports_witness :
  well_formed up_then_down /\
  Forall (fun c => 0 < c)%Q [1; 2; 1]%Q /\
  (3 <= length [1; 2; 1]%Q)%nat /\
  exists fig buy_hold strategy v1 v2,
    run_backtest (fun base _ => base) (fun x => x)
      up_then_down "AAPL" "2020-01-01" "2020-01-04" 1 2
    = Finished
        [Print "Running backtest for AAPL from 2020-01-01 to 2020-01-04";
         ShowSignals fig; ShowPerformance buy_hold strategy;
         PrintReport (Statistics "Buy & Hold" v1);
         PrintReport (Statistics "SMA Strategy" v2)].
Proof.
  assert (Hwf_table : well_formed up_then_down)
    by (apply (bool_decide_unpack _); by vm_compute).
  assert (Hclose_table : getitem up_then_down "Close"
                         = Some (Floats (Some <$> [1; 2; 1]%Q)))
    by reflexivity.
  assert (Hpositive : Forall (fun c => 0 < c)%Q [1; 2; 1]%Q)
    by (by repeat constructor).
  assert (Hrows : (3 <= length [1; 2; 1]%Q)%nat) by (simpl; lia).
  split; [exact Hwf_table|]. split; [exact Hpositive|].
  split; [exact Hrows|].
  apply (three_positive_closes_give_two_numeric_reports
           (fun base _ => base) (fun x => x) up_then_down
           "AAPL" "2020-01-01" "2020-01-04" 1 2 [1; 2; 1]%Q
           Hwf_table Hclose_table Hpositive Hrows).
Defined.

Lemma max_drawdown_between_minus_one_and_zero_witness :
  (2 <= length (dropna [Some (1 # 10); Some (-2 # 10); Some (1 # 10)]%Q))%nat /\
  Forall (fun r => -1 < r)%Q
    (dropna [Some (1 # 10); Some (-2 # 10); Some (1 # 10)]%Q) /\
  exists values m,
    get_performance_report (fun base _ => base) (fun x => x)
      [Some (1 # 10); Some (-2 # 10); Some (1 # 10)]%Q "Strategy"
    = Statistics "Strategy" values /\
    max_drawdown values = Some m /\ (-1 <= m)%Q /\ (m <= 0)%Q.
Proof.
  assert (Hn : (2 <= length (dropna [Some (1 # 10); Some (-2 # 10);
                                     Some (1 # 10)]%Q))%nat) by (simpl; lia).
  assert (Hall : Forall (fun r => -1 < r)%Q
                   (dropna [Some (1 # 10); Some (-2 # 10); Some (1 # 10)]%Q))
    by (by repeat constructor).
  split; [exact Hn|]. split; [exact Hall|].
  apply (max_drawdown_between_minus_one_and_zero (fun base _ => base)
           (fun x => x) _ "Strategy" Hn Hall).
Defined.

Lemma flat_returns_give_zero_statistics_witness :
  (2 <= length (dropna [None; Some 0%Q; Some 0%Q]))%nat /\
  Forall (fun r => r == 0)%Q (dropna [None; Some 0%Q; Some 0%Q]) /\
  exists values,
    get_performance_report (fun base _ => base) (fun x => x)
      [None; Some 0%Q; Some 0%Q] "Strategy"
    = Statistics "Strategy" values /\
    (cumulative_return values == 0)%Q /\
    sharpe_ratio values = Some 0%Q.
Proof.
  assert (Hn : (2 <= length (dropna [None; Some 0%Q; Some 0%Q]))%nat)
    by (simpl; lia).
  assert (Hall : Forall (fun r => r == 0)%Q (dropna [None; Some 0%Q; Some 0%Q]))
    by (by repeat constructor).
  split; [exact Hn|]. split; [exact Hall|].
  destruct (flat_returns_give_zero_statistics (fun base _ => base)
              (fun x => x) _ "Strategy" Hn Hall)
    as (values & m & Hrep & Hcum & _ & _ & _ & Hsharpe).
  exists values. split; [exact Hrep|]. split; [exact Hcum|].
  apply Hsharpe; [by intros x y E | reflexivity].
Defined.

Lemma run_backtest_finishes_with_two_reports_of_one_kind_witness :
  run_backtest (fun base _ => base) (fun x => x)
    (mkDataFrame [] ∅) "AAPL" "2020-01-01" "2024-12-31" 20 50
  = Finished [Print "Could not download data for AAPL."] /\
  well_formed up_then_down /\ index up_then_down <> [] /\
  Forall (fun c => 0 < c)%Q [1; 2; 1]%Q /\
  (exists out,
     run_backtest (fun base _ => base) (fun x => x)
       up_then_down "AAPL" "2020-01-01" "2024-12-31" 20 50
     = Finished out /\ length out = 5%nat) /\
  exists fig buy_hold strategy report_buy_hold report_strategy,
    run_backtest (fun base _ => base) (fun x => x)
      up_then_down "AAPL" "2020-01-01" "2024-12-31" 1 2
    = Finished
        [Print "Running backtest for AAPL from 2020-01-01 to 2024-12-31";
         ShowSignals fig; ShowPerformance buy_hold strategy;
         PrintReport report_buy_hold; PrintReport report_strategy] /\
    ((exists t1 t2, report_buy_hold = NotEnoughData t1 /\
                    report_strategy = NotEnoughData t2) \/
     (exists v1 v2, report_buy_hold = Statistics "Buy & Hold" v1 /\
                    report_strategy = Statistics "SMA Strategy" v2)).
Proof.
  assert (Hwf_table : well_formed up_then_down)
    by (apply (bool_decide_unpack _); by vm_compute).
  assert (Hclose_table : getitem up_then_down "Close"
                         = Some (Floats (Some <$> [1; 2; 1]%Q)))
    by reflexivity.
  assert (Hidx : index up_then_down <> []) by done.
  assert (Hpositive : Forall (fun c => 0 < c)%Q [1; 2; 1]%Q)
    by (by repeat constructor).
  split.
  { apply (proj1 (run_backtest_finishes_with_two_reports_of_one_kind
                    (fun base _ => base) (fun x => x) (mkDataFrame [] ∅)
                    "AAPL" "2020-01-01" "2024-12-31" 20 50)).
    by left. }
  split; [exact Hwf_table|]. split; [exact Hidx|]. split; [exact Hpositive|].
  split.
  { destruct (proj1 (proj2 (run_backtest_finishes_with_two_reports_of_one_kind
                              (fun base _ => base) (fun x => x) up_then_down
                              "AAPL" "2020-01-01" "2024-12-31" 20 50))
                _ Hwf_table Hidx Hclose_table)
      as (fig & bh & st & r1 & r2 & Hrun).
    eexists. split; [exact Hrun | reflexivity]. }
  apply (proj2 (proj2 (run_backtest_finishes_with_two_reports_of_one_kind
                         (fun base _ => base) (fun x => x) up_then_down
                         "AAPL" "2020-01-01" "2024-12-31" 1 2))
           [1; 2; 1]%Q Hwf_table Hidx Hclose_table Hpositive).
Defined.

Lemma short_table_gives_two_placeholders_witness :
  well_formed two_rows /\ index two_rows <> [] /\
  (length (index two_rows) <= 2)%nat /\
  exists fig buy_hold strategy t1 t2,
    run_backtest (fun base _ => base) (fun x => x)
      two_rows "AAPL" "2020-01-01" "2020-01-03" 20 50
    = Finished
        [Print "Running backtest for AAPL from 2020-01-01 to 2020-01-03";
         ShowSignals fig; ShowPerformance buy_hold strategy;
         PrintReport (NotEnoughData t1); PrintReport (NotEnoughData t2)].
Proof.
  assert (Hwf_two : well_formed two_rows)
    by (apply (bool_decide_unpack _); by vm_compute).
  assert (Hidx : index two_rows <> []) by done.
  assert (Hrows : (length (index two_rows) <= 2)%nat) by (simpl; lia).
  split; [exact Hwf_two|]. split; [exact Hidx|].
  split; [exact Hrows|].
  apply (short_table_gives_two_placeholders (fun base _ => base) (fun x => x)
           two_rows "AAPL" "2020-01-01" "2020-01-03" 20 50
           (Floats [Some 1%Q; Some 2%Q]) Hwf_two Hidx
           eq_refl Hrows).
Defined.

Lemma get_metric_takes_first_key_present_witness :
  sharpe_only !! "Sharpe Ratio" = None /\
  sharpe_only !! "Sharpe" = Some (3 # 2)%Q /\
  get_metric sharpe_only ["Sharpe Ratio"; "Sharpe"] 0%Q = ((3 # 2)%Q, false).
Proof.
  assert (Hmiss : sharpe_only !! "Sharpe Ratio" = None) by reflexivity.
  assert (Hhit : sharpe_only !! "Sharpe" = Some (3 # 2)%Q) by reflexivity.
  split; [exact Hmiss|]. split; [exact Hhit|].
  apply (proj1 (get_metric_takes_first_key_present sharpe_only
                  ["Sharpe Ratio"; "Sharpe"] 0%Q)
           ["Sharpe Ratio"] "Sharpe" [] (3 # 2)%Q eq_refl).
  - by repeat constructor.
  - exact Hhit.
Defined.

Lemma moving_averages_defined_once_window_is_full_witness :
  (0 < 1)%nat /\ (0 < 2)%nat /\
  exists df',
    calculate_signals up_then_down 1 2 = Returns df' /\
    floats_of df' (sma_name 2) !! 0%nat = Some None /\
    exists mean, floats_of df' (sma_name 2) !! 1%nat = Some (Some mean).
Proof.
  assert (H1 : (0 < 1)%nat) by lia. assert (H2 : (0 < 2)%nat) by lia.
  split; [exact H1|]. split; [exact H2|].
  destruct (moving_averages_defined_once_window_is_full up_then_down 1 2
              [1; 2; 1]%Q eq_refl H1 H2) as (df' & Hret & Hdef).
  exists df'. split; [exact Hret|]. split.
  - apply (Hdef 2%nat 0%nat); [by right | simpl; lia | lia].
  - apply (Hdef 2%nat 1%nat); [by right | simpl; lia | lia].
Defined.
